(** * AIS NMEA message parser and track reconstruction

    A shallow embedding of [mana/examples/ais_parser.py]: the 6-bit payload
    decoder, the message dispatcher, the position-report and static/voyage
    decoders, the dead-reckoning calculator and the log-file pipeline.

    Conventions of the embedding.
    - A Python [str] of ['0']/['1'] characters (the "binary" string) is a
      [list bool], most significant bit first.
    - Other strings are [string]s of 8-bit characters; [ord] is the code.
    - Python floats are idealised as exact rationals ([Q]); float equality
      is [Qeq].  The functions of the [math] module are an interface
      ([MathLib]) the calculator is parametrised by.
    - A [datetime] built by [datetime.fromtimestamp] is kept as its epoch
      second ([Z]); the difference of two of them is their difference in
      seconds.
    - A function that returns [None] from its [except] clause returns
      [None] here at the places where an exception is raised; these bodies
      are written in the option monad ([x ← e; k]).
    - Dictionaries keyed by MMSI are [gmap Z _]. *)

From Stdlib Require Import ZArith QArith Qabs Lqa String Ascii List Lia DecimalString.
From stdpp Require Import gmap.

Local Open Scope string_scope.
Local Open Scope list_scope.
Local Open Scope Z_scope.

(** ** Python built-ins used by the parser *)

Module Py.

Definition ord (c : ascii) : Z := Z.of_N (N_of_ascii c).
Definition chr (z : Z) : ascii := ascii_of_N (Z.to_N z).

(** [c1 <= c <= c2] on one-character strings compares code points. *)
Definition char_between (lo c hi : ascii) : bool :=
  (ord lo <=? ord c) && (ord c <=? ord hi).

(** Binary digits of a positive number, most significant first. *)
Fixpoint pos_bin (p : positive) : list bool :=
  match p with
  | xH => [true]
  | xO p' => pos_bin p' ++ [false]
  | xI p' => pos_bin p' ++ [true]
  end.

(** [format(val, 'b')] for a non-negative [val] (the armoring values are
    never negative; the sign of a negative one is not rendered here). *)
Definition bin (val : Z) : list bool :=
  match val with
  | Z0 => [false]
  | Zpos p => pos_bin p
  | Zneg p => pos_bin p
  end.

(** [format(val, '06b')]: zero-padded on the left to at least 6 digits. *)
Definition format_06b (val : Z) : list bool :=
  replicate (6 - length (bin val)) false ++ bin val.

(** The number a digit string denotes in base 2. *)
Definition bits_value (bits : list bool) : Z :=
  fold_left (fun acc (b : bool) => 2 * acc + (if b then 1 else 0)) bits 0.

(** [int(s, 2)]: raises [ValueError] on the empty string. *)
Definition int2 (bits : list bool) : option Z :=
  match bits with
  | [] => None
  | _ => Some (bits_value bits)
  end.

(** [s[a:b]] for [0 <= a <= b]; Python clamps both ends to [len(s)]. *)
Definition slice {A} (a b : nat) (s : list A) : list A :=
  take (b - a) (drop a s).

(** [str.isspace] on the code points below 256. *)
Definition isspace (c : ascii) : bool :=
  let n := ord c in
  ((9 <=? n) && (n <=? 13)) || ((28 <=? n) && (n <=? 32))
  || (n =? 133) || (n =? 160).

Fixpoint lstrip (s : string) : string :=
  match s with
  | String c rest => if isspace c then lstrip rest else s
  | EmptyString => EmptyString
  end.

Fixpoint rstrip (s : string) : string :=
  match s with
  | String c rest =>
      match rstrip rest with
      | EmptyString => if isspace c then EmptyString else String c EmptyString
      | r => String c r
      end
  | EmptyString => EmptyString
  end.

(** [str.strip()]: whitespace removed at both ends. *)
Definition strip (s : string) : string := rstrip (lstrip s).

(** [str(n)] for an integer. *)
Definition str_of_int (n : Z) : string := NilZero.string_of_int (Z.to_int n).

(** Float comparisons, on the rational idealisation. *)
Definition Qgtb (x y : Q) : bool := negb (Qle_bool x y).
Definition Qltb (x y : Q) : bool := negb (Qle_bool y x).
Definition Qgeb (x y : Q) : bool := Qle_bool y x.

(** [s.startswith(p)], returning what follows the prefix. *)
Fixpoint strip_prefix (p s : string) : option string :=
  match p, s with
  | EmptyString, _ => Some s
  | String a p', String b s' => if Ascii.eqb a b then strip_prefix p' s' else None
  | String _ _, EmptyString => None
  end.

(** The longest prefix of [s] whose characters satisfy [f], and the rest. *)
Fixpoint span (f : ascii -> bool) (s : string) : string * string :=
  match s with
  | String c rest =>
      if f c then let '(run, tl) := span f rest in (String c run, tl)
      else (EmptyString, s)
  | EmptyString => (EmptyString, EmptyString)
  end.

Definition isdigit (c : ascii) : bool := char_between "0" c "9".

(** [int(s)] on a string of decimal digits. *)
Definition int10 (s : string) : Z :=
  fold_left (fun acc c => 10 * acc + (ord c - ord "0")) (list_ascii_of_string s) 0.

(** [re.search]: the anchored matcher [m] is tried at every start
    position from the left, the end of the string included. *)
Fixpoint re_search {A} (m : string -> option A) (s : string) : option A :=
  match m s with
  | Some r => Some r
  | None =>
      match s with
      | String _ rest => re_search m rest
      | EmptyString => None
      end
  end.

(** The last second [datetime.fromtimestamp] accepts (end of year 9999,
    with UTC as the local time zone). *)
Definition MAX_TIMESTAMP : Z := 253402300799.

(** [datetime.fromtimestamp(t)] for [t >= 0]: the epoch second itself, or
    an exception beyond the representable years. *)
Definition fromtimestamp (t : Z) : option Z :=
  if t <=? MAX_TIMESTAMP then Some t else None.

End Py.

Import Py.

(** ** Records the parser returns *)

(** The dictionary [_parse_position_report] returns.  The callers test
    ['lat'] and ['lon'] against [None], so both are optional. *)
Record PositionReport := {
  timestamp : Z;
  mmsi : Z;
  message_type : Z;
  nav_status : Z;
  rot : Z;
  sog : Q;
  position_accuracy : Z;
  lat : option Q;
  lon : option Q;
  cog : Q;
  true_heading : Z;
  timestamp_sec : Z
}.

(** The dictionary [_parse_static_voyage_data] returns; its
    ['message_type'] is the constant 5. *)
Record StaticVoyageData := {
  sv_timestamp : Z;
  sv_mmsi : Z;
  ais_version : Z;
  imo : Z;
  call_sign : string;
  vessel_name : string;
  ship_type : Z;
  ship_type_name : string;
  dim_to_bow : Z;
  dim_to_stern : Z;
  dim_to_port : Z;
  dim_to_starboard : Z;
  eta_month : Z;
  eta_day : Z;
  eta_hour : Z;
  eta_minute : Z;
  draught : Q;
  destination : string;
  dte : Z;
  spare : Z
}.

Inductive DecodedMessage :=
| Position (r : PositionReport)
| Static (s : StaticVoyageData).

(** ** class AISParser *)

Module AISParser.

(** [self.ship_types], in the order of the source. *)
Definition ship_types_items : list (Z * string) :=
  [ (20, "Wing in ground (WIG)"); (21, "Wing in ground (WIG)");
    (22, "Wing in ground (WIG)"); (23, "Wing in ground (WIG)");
    (30, "Fishing"); (31, "Towing"); (32, "Towing (large)");
    (33, "Dredging or underwater ops"); (34, "Diving ops");
    (35, "Military ops"); (36, "Sailing"); (37, "Pleasure craft");
    (50, "Pilot vessel"); (51, "Search and rescue"); (52, "Tug");
    (53, "Port tender"); (54, "Anti-pollution equipment");
    (55, "Law enforcement"); (56, "Spare - local vessel");
    (57, "Spare - local vessel"); (58, "Medical transport");
    (59, "Non-combatant ship");
    (60, "Passenger"); (61, "Passenger"); (62, "Passenger");
    (63, "Passenger"); (64, "Passenger"); (69, "Passenger");
    (70, "Cargo"); (71, "Cargo"); (72, "Cargo"); (73, "Cargo");
    (74, "Cargo"); (75, "Cargo"); (76, "Cargo"); (77, "Cargo");
    (78, "Cargo"); (79, "Cargo");
    (80, "Tanker"); (81, "Tanker"); (82, "Tanker"); (83, "Tanker");
    (84, "Tanker"); (85, "Tanker"); (86, "Tanker"); (87, "Tanker");
    (88, "Tanker"); (89, "Tanker");
    (90, "Other") ].

Definition ship_types : gmap Z string := list_to_map ship_types_items.

(** [self.ship_types.get(ship_type, f"Unknown ({ship_type})")] *)
Definition ship_type_display (code : Z) : string :=
  default ("Unknown (" ++ str_of_int code ++ ")")%string (ship_types !! code).

(** The [if]/[elif] chain of [_ais_to_binary]: the value of one payload
    character, [None] where the loop [continue]s. *)
Definition armor_value (char : ascii) : option Z :=
  if Ascii.eqb char "@" then Some 0
  else if char_between "A" char "W" then Some (ord char - ord "A" + 1)
  else if char_between "a" char "w" then Some (ord char - ord "a" + 33)
  else if char_between "0" char "9" then Some (ord char - ord "0" + 48)
  else None.

Fixpoint _ais_to_binary (ais_data : string) : list bool :=
  match ais_data with
  | EmptyString => []
  | String char rest =>
      match armor_value char with
      | Some val => format_06b val ++ _ais_to_binary rest
      | None => _ais_to_binary rest
      end
  end.

(** One step of the [if]/[elif] chain of [_decode_text]: the character a
    non-zero 6-bit value appends, [None] where nothing is appended. *)
Definition text_char (char_val : Z) : option ascii :=
  if char_val <=? 26 then Some (chr (ord "A" + char_val - 1))
  else if char_val <=? 36 then Some (chr (ord "0" + char_val - 27))
  else if char_val =? 32 then Some " "%char
  else if char_val =? 37 then Some "@"%char
  else if char_val =? 38 then Some "["%char
  else if char_val =? 39 then Some "\"%char
  else if char_val =? 40 then Some "]"%char
  else if char_val =? 41 then Some "^"%char
  else if char_val =? 42 then Some "_"%char
  else None.

(** The loop of [_decode_text]: [text] before [strip]. *)
Fixpoint decode_text_loop (binary : list bool) : string :=
  match binary with
  | b0 :: b1 :: b2 :: b3 :: b4 :: b5 :: rest =>
      let char_val := bits_value [b0; b1; b2; b3; b4; b5] in
      if char_val =? 0 then EmptyString
      else match text_char char_val with
           | Some c => String c (decode_text_loop rest)
           | None => decode_text_loop rest
           end
  | _ => EmptyString
  end.

Definition _decode_text (binary : list bool) : string :=
  strip (decode_text_loop binary).

(** Lines 156-161: the latitude after the sentinel test and the
    wraparound correction. *)
Definition decode_lat (lat_raw : Z) : option Q :=
  if lat_raw =? 0x3412140 then None
  else
    let lat := (inject_Z lat_raw / 600000)%Q in
    Some (if Qgtb lat 90 then (lat - 180)%Q else lat).

(** Lines 163-168: the same for the longitude. *)
Definition decode_lon (lon_raw : Z) : option Q :=
  if lon_raw =? 0x6791AC0 then None
  else
    let lon := (inject_Z lon_raw / 600000)%Q in
    Some (if Qgtb lon 180 then (lon - 360)%Q else lon).

Definition _parse_position_report (binary : list bool) (timestamp msg_type : Z)
  : option PositionReport :=
  if (length binary <? 168)%nat then None
  else
    mmsi ← int2 (slice 8 38 binary);
    nav_status ← int2 (slice 38 42 binary);
    rot ← int2 (slice 42 50 binary);
    sog_raw ← int2 (slice 50 60 binary);
    position_accuracy ← int2 (slice 60 61 binary);
    lon_raw ← int2 (slice 61 89 binary);
    lat_raw ← int2 (slice 89 116 binary);
    cog_raw ← int2 (slice 116 128 binary);
    true_heading ← int2 (slice 128 137 binary);
    timestamp_sec ← int2 (slice 137 143 binary);
    let lat := decode_lat lat_raw in
    let lon := decode_lon lon_raw in
    match lat, lon with
    | Some la, Some lo =>
        if Qgtb (Qabs la) 90 || Qgtb (Qabs lo) 180 then None
        else Some {| timestamp := timestamp;
                     mmsi := mmsi;
                     message_type := msg_type;
                     nav_status := nav_status;
                     rot := rot;
                     sog := (inject_Z sog_raw / 10)%Q;
                     position_accuracy := position_accuracy;
                     lat := lat;
                     lon := lon;
                     cog := (inject_Z cog_raw / 10)%Q;
                     true_heading := true_heading;
                     timestamp_sec := timestamp_sec |}
    | _, _ => None
    end.

Definition _parse_static_voyage_data (binary : list bool) (timestamp : Z)
  : option StaticVoyageData :=
  if (length binary <? 424)%nat then None
  else
    mmsi ← int2 (slice 8 38 binary);
    ais_version ← int2 (slice 38 40 binary);
    imo ← int2 (slice 40 70 binary);
    let call_sign := _decode_text (slice 70 112 binary) in
    let vessel_name := _decode_text (slice 112 232 binary) in
    ship_type ← int2 (slice 232 240 binary);
    dim_to_bow ← int2 (slice 240 249 binary);
    dim_to_stern ← int2 (slice 249 258 binary);
    dim_to_port ← int2 (slice 258 264 binary);
    dim_to_starboard ← int2 (slice 264 270 binary);
    eta_month ← int2 (slice 270 274 binary);
    eta_day ← int2 (slice 274 279 binary);
    eta_hour ← int2 (slice 279 284 binary);
    eta_minute ← int2 (slice 284 290 binary);
    draught_raw ← int2 (slice 290 298 binary);
    let destination := _decode_text (slice 298 422 binary) in
    dte ← int2 (slice 422 423 binary);
    spare ← int2 (slice 423 424 binary);
    Some {| sv_timestamp := timestamp;
            sv_mmsi := mmsi;
            ais_version := ais_version;
            imo := imo;
            call_sign := call_sign;
            vessel_name := vessel_name;
            ship_type := ship_type;
            ship_type_name := ship_type_display ship_type;
            dim_to_bow := dim_to_bow;
            dim_to_stern := dim_to_stern;
            dim_to_port := dim_to_port;
            dim_to_starboard := dim_to_starboard;
            eta_month := eta_month;
            eta_day := eta_day;
            eta_hour := eta_hour;
            eta_minute := eta_minute;
            draught := (inject_Z draught_raw / 10)%Q;
            destination := destination;
            dte := dte;
            spare := spare |}.

Definition parse_ais_message (ais_data : string) (timestamp : Z)
  : option DecodedMessage :=
  let binary := _ais_to_binary ais_data in
  match binary with
  | [] => None
  | _ =>
      message_type ← int2 (slice 0 6 binary);
      if (message_type =? 1) || (message_type =? 2) || (message_type =? 3)
      then Position <$> _parse_position_report binary timestamp message_type
      else if message_type =? 5
      then Static <$> _parse_static_voyage_data binary timestamp
      else None
  end.

(** The pattern [c:(\d+)] anchored at the start of [s]: group 1. *)
Definition match_timestamp (s : string) : option string :=
  rest ← strip_prefix "c:" s;
  let '(digits, _) := span isdigit rest in
  match digits with
  | EmptyString => None
  | _ => Some digits
  end.

(** [\d+] followed by the literal [sep], anchored: what follows. *)
Definition match_digits_then (sep s : string) : option string :=
  let '(digits, rest) := span isdigit s in
  match digits with
  | EmptyString => None
  | _ => strip_prefix sep rest
  end.

(** The pattern [!AIVDM,\d+,\d+,,.,([^,]+)] anchored at the start of
    [s]: group 1.  [.] is any character but a newline. *)
Definition match_aivdm (s : string) : option string :=
  s1 ← strip_prefix "!AIVDM," s;
  s2 ← match_digits_then "," s1;
  s3 ← match_digits_then ",," s2;
  match s3 with
  | String channel s4 =>
      if Ascii.eqb channel "010" then None
      else
        s5 ← strip_prefix "," s4;
        let '(payload, _) := span (fun c => negb (Ascii.eqb c ",")) s5 in
        match payload with
        | EmptyString => None
        | _ => Some payload
        end
  | EmptyString => None
  end.

Definition parse_nmea_line (line : string) : option DecodedMessage :=
  timestamp_match ← re_search match_timestamp line;
  let timestamp := int10 timestamp_match in
  dt ← fromtimestamp timestamp;
  ais_data ← re_search match_aivdm line;
  parse_ais_message ais_data dt.

End AISParser.

Import AISParser.

(** ** class DeadReckoningCalculator *)

(** The functions of Python's [math] module the calculator calls. *)
Class MathLib := {
  radians : Q -> Q;
  degrees : Q -> Q;
  cos : Q -> Q;
  sin : Q -> Q;
  asin : Q -> Q;
  atan2 : Q -> Q -> Q
}.

Module DeadReckoningCalculator.
Section Calculator.
Context `{M : MathLib}.

Local Open Scope Q_scope.

Definition EARTH_RADIUS_KM : Q := 6371.

Definition _haversine_calculate (lat1 lon1 distance_km bearing_deg : Q) : Q * Q :=
  let lat1_rad := radians lat1 in
  let lon1_rad := radians lon1 in
  let bearing_rad := radians bearing_deg in
  let angular_distance := distance_km / EARTH_RADIUS_KM in
  let lat2_rad :=
    asin (sin lat1_rad * cos angular_distance
          + cos lat1_rad * sin angular_distance * cos bearing_rad) in
  let lon2_rad :=
    lon1_rad + atan2 (sin bearing_rad * sin angular_distance * cos lat1_rad)
                     (cos angular_distance - sin lat1_rad * sin lat2_rad) in
  (degrees lat2_rad, degrees lon2_rad).

(** [distance_km] of [calculate_position]. *)
Definition distance_km (sog time_diff_seconds : Q) : Q :=
  let speed_km_s := (sog * 1.852) / 3600 in
  speed_km_s * time_diff_seconds.

(** The [if] branch of [calculate_position]: the flat-earth
    approximation.  The division is the total one of [Q]; in the source
    the divisor [111.0 * math.cos(lat1_rad)] is a non-zero float, the
    cosine of a float being never exactly zero. *)
Definition flat_earth (lat1 lon1 distance_km cog : Q) : Q * Q :=
  let lat1_rad := radians lat1 in
  let cog_rad := radians cog in
  let lat_diff := distance_km * cos cog_rad / 111 in
  let lon_diff := distance_km * sin cog_rad / (111 * cos lat1_rad) in
  (lat1 + lat_diff, lon1 + lon_diff).

Definition calculate_position (lat1 lon1 sog cog time_diff_seconds : Q) : Q * Q :=
  let distance_km := distance_km sog time_diff_seconds in
  if Qltb distance_km 100 then flat_earth lat1 lon1 distance_km cog
  else _haversine_calculate lat1 lon1 distance_km cog.

End Calculator.
End DeadReckoningCalculator.

Import DeadReckoningCalculator.

(** ** process_ais_log_file *)

(** A value of [ship_last_positions]. *)
Record LastPosition := {
  lp_lat : Q;
  lp_lon : Q;
  lp_sog : Q;
  lp_cog : Q;
  lp_timestamp : Z
}.

(** A row of [ship_data]. *)
Record TrackPoint := {
  tp_timestamp : Z;
  tp_mmsi : Z;
  tp_ship_type : Z;
  tp_ship_type_name : option string;
  tp_vessel_name : option string;
  tp_lat : Q;
  tp_lon : Q;
  tp_sog : Q;
  tp_cog : Q;
  tp_nav_status : Z;
  tp_position_accuracy : Z;
  tp_true_heading : Z;
  is_dead_reckoned : bool
}.

(** The three local containers of [process_ais_log_file]. *)
Record State := {
  ship_data : list TrackPoint;
  ship_static_data : gmap Z StaticVoyageData;
  ship_last_positions : gmap Z LastPosition
}.

Definition initial_state : State :=
  {| ship_data := []; ship_static_data := ∅; ship_last_positions := ∅ |}.

Section Pipeline.
Context `{M : MathLib}.

(** [parsed['message_type'] in [1, 2, 3]] *)
Definition is_position_type (t : Z) : bool :=
  (t =? 1) || (t =? 2) || (t =? 3).

(** The row appended for report [r] at position [(la, lo)]. *)
Definition track_point (static_data : option StaticVoyageData)
    (r : PositionReport) (la lo sog cog : Q) (dr : bool) : TrackPoint :=
  {| tp_timestamp := timestamp r;
     tp_mmsi := mmsi r;
     tp_ship_type := from_option ship_type 0 static_data;
     tp_ship_type_name := ship_type_name <$> static_data;
     tp_vessel_name := vessel_name <$> static_data;
     tp_lat := la;
     tp_lon := lo;
     tp_sog := sog;
     tp_cog := cog;
     tp_nav_status := nav_status r;
     tp_position_accuracy := position_accuracy r;
     tp_true_heading := true_heading r;
     is_dead_reckoned := dr |}.

(** Lines 377-445: the handling of one position report. *)
Definition process_position (st : State) (r : PositionReport) : State :=
  if is_position_type (message_type r) then
    let static_data := ship_static_data st !! mmsi r in
    match lat r, lon r with
    | Some la, Some lo =>
        {| ship_data :=
             ship_data st ++ [track_point static_data r la lo (sog r) (cog r) false];
           ship_static_data := ship_static_data st;
           ship_last_positions :=
             <[mmsi r := {| lp_lat := la; lp_lon := lo; lp_sog := sog r;
                            lp_cog := cog r; lp_timestamp := timestamp r |}]>
               (ship_last_positions st) |}
    | _, _ =>
        match ship_last_positions st !! mmsi r with
        | Some last_pos =>
            let time_diff := timestamp r - lp_timestamp last_pos in
            if (time_diff >? 0) && (time_diff <? 3600) then
              let '(new_lat, new_lon) :=
                calculate_position (lp_lat last_pos) (lp_lon last_pos)
                  (lp_sog last_pos) (lp_cog last_pos) (inject_Z time_diff) in
              let sog' := if Qgtb (sog r) 0 then sog r else lp_sog last_pos in
              let cog' := if Qgeb (cog r) 0 then cog r else lp_cog last_pos in
              {| ship_data :=
                   ship_data st ++ [track_point static_data r new_lat new_lon sog' cog' true];
                 ship_static_data := ship_static_data st;
                 ship_last_positions :=
                   <[mmsi r := {| lp_lat := new_lat; lp_lon := new_lon;
                                  lp_sog := sog'; lp_cog := cog';
                                  lp_timestamp := timestamp r |}]>
                     (ship_last_positions st) |}
            else st
        | None => st
        end
    end
  else st.

(** Lines 369-445: the handling of one parsed message. *)
Definition process_parsed (st : State) (parsed : DecodedMessage) : State :=
  match parsed with
  | Static s =>
      {| ship_data := ship_data st;
         ship_static_data := <[sv_mmsi s := s]> (ship_static_data st);
         ship_last_positions := ship_last_positions st |}
  | Position r => process_position st r
  end.

(** The body of the [for] loop over the lines of the file. *)
Definition process_line (st : State) (line : string) : State :=
  match parse_nmea_line (strip line) with
  | None => st
  | Some parsed => process_parsed st parsed
  end.

(** The rows of the returned data frame, for the lines of the file. *)
Definition process_ais_log_file (lines : list string) : list TrackPoint :=
  ship_data (fold_left process_line lines initial_state).

End Pipeline.

(** ** class HybridAISProcessor (hybrid_ais_processor.py) *)

(** An element of a list of [self.ship_positions].  Timestamps of
    synthetic positions have fractions of a second, so the epoch second
    is a rational here. *)
Record HybridPosition := {
  hp_timestamp : Q;
  hp_lat : option Q;
  hp_lon : option Q;
  hp_sog : Q;
  hp_cog : Q;
  hp_nav_status : Z;
  hp_position_accuracy : Z;
  hp_true_heading : Q;
  hp_is_dead_reckoned : bool;
  hp_is_synthetic : bool
}.

Module HybridAISProcessor.

(** The table of [_get_ship_type_name], in the order of the source. *)
Definition ship_types_items : list (Z * string) :=
  [ (20, "Wing in ground (WIG)"); (21, "Wing in ground (WIG)");
    (22, "Wing in ground (WIG)"); (23, "Wing in ground (WIG)");
    (24, "Wing in ground (WIG)"); (25, "Wing in ground (WIG)");
    (26, "Wing in ground (WIG)"); (27, "Wing in ground (WIG)");
    (28, "Wing in ground (WIG)"); (29, "Wing in ground (WIG)");
    (30, "Fishing"); (31, "Towing"); (32, "Towing");
    (33, "Dredging or underwater ops"); (34, "Diving ops");
    (35, "Military ops"); (36, "Sailing"); (37, "Pleasure craft");
    (40, "High speed craft (HSC)"); (41, "High speed craft (HSC)");
    (42, "High speed craft (HSC)"); (43, "High speed craft (HSC)");
    (44, "High speed craft (HSC)"); (45, "High speed craft (HSC)");
    (46, "High speed craft (HSC)"); (47, "High speed craft (HSC)");
    (48, "High speed craft (HSC)"); (49, "High speed craft (HSC)");
    (50, "Pilot vessel"); (51, "Search and rescue"); (52, "Tug");
    (53, "Port tender"); (54, "Anti-pollution equipment");
    (55, "Law enforcement"); (56, "Spare - Local vessel");
    (57, "Spare - Local vessel"); (58, "Medical transport");
    (59, "Noncombatant ship");
    (60, "Passenger"); (61, "Passenger"); (62, "Passenger");
    (63, "Passenger"); (64, "Passenger"); (69, "Passenger");
    (70, "Cargo"); (71, "Cargo"); (72, "Cargo"); (73, "Cargo");
    (74, "Cargo"); (75, "Cargo"); (76, "Cargo"); (77, "Cargo");
    (78, "Cargo"); (79, "Cargo");
    (80, "Tanker"); (81, "Tanker"); (82, "Tanker"); (83, "Tanker");
    (84, "Tanker"); (85, "Tanker"); (86, "Tanker"); (87, "Tanker");
    (88, "Tanker"); (89, "Tanker");
    (90, "Other type") ].

Definition ship_types : gmap Z string := list_to_map ship_types_items.


Section DeadReckoning.
Context `{M : MathLib}.

(** [positions[i]] after the three assignments of the dead-reckoning
    branch. *)
Definition dead_reckoned (pos : HybridPosition) (new_lat new_lon : Q)
    : HybridPosition :=
  {| hp_timestamp := hp_timestamp pos;
     hp_lat := Some new_lat;
     hp_lon := Some new_lon;
     hp_sog := hp_sog pos;
     hp_cog := hp_cog pos;
     hp_nav_status := hp_nav_status pos;
     hp_position_accuracy := hp_position_accuracy pos;
     hp_true_heading := hp_true_heading pos;
     hp_is_dead_reckoned := true;
     hp_is_synthetic := hp_is_synthetic pos |}.

(** The inner loop of [_apply_dead_reckoning] over the positions of one
    vessel, from the values of [last_lat], [last_lon] and [last_time];
    [None] is the [TypeError] of subtracting [last_time = None] from a
    timestamp (the method has no [except]). *)
Fixpoint dead_reckon_from (last_lat last_lon last_time : option Q)
    (positions : list HybridPosition) : option (list HybridPosition) :=
  match positions with
  | [] => Some []
  | pos :: rest =>
      match hp_lat pos, hp_lon pos with
      | Some la, Some lo =>
          cons pos <$>
            dead_reckon_from (Some la) (Some lo) (Some (hp_timestamp pos)) rest
      | _, _ =>
          match last_lat, last_lon with
          | Some lat0, Some lon0 =>
              t0 ← last_time;
              let time_diff := (hp_timestamp pos - t0)%Q in
              if Qgtb time_diff 0 && Qltb time_diff 3600 then
                let '(new_lat, new_lon) :=
                  calculate_position lat0 lon0 (hp_sog pos) (hp_cog pos)
                    time_diff in
                cons (dead_reckoned pos new_lat new_lon) <$>
                  dead_reckon_from (Some new_lat) (Some new_lon) last_time rest
              else
                cons pos <$> dead_reckon_from last_lat last_lon last_time rest
          | _, _ =>
              cons pos <$> dead_reckon_from last_lat last_lon last_time rest
          end
      end
  end.

(** The body of the outer loop of [_apply_dead_reckoning]: the positions
    of one vessel after the method. *)
Definition _apply_dead_reckoning (positions : list HybridPosition)
    : option (list HybridPosition) :=
  dead_reckon_from None None None positions.

End DeadReckoning.
End HybridAISProcessor.

(** ** Vocabulary of the properties *)

(** The unsigned number in the bit range [[a, b)] of a bit stream. *)
Definition field (a b : nat) (binary : list bool) : Z :=
  bits_value (slice a b binary).

(** The record the decoder builds from the fields of [binary]. *)
Definition position_fields (binary : list bool) (timestamp msg_type : Z)
    (lat lon : option Q) : PositionReport :=
  {| timestamp := timestamp;
     mmsi := field 8 38 binary;
     message_type := msg_type;
     nav_status := field 38 42 binary;
     rot := field 42 50 binary;
     sog := (inject_Z (field 50 60 binary) / 10)%Q;
     position_accuracy := field 60 61 binary;
     lat := lat;
     lon := lon;
     cog := (inject_Z (field 116 128 binary) / 10)%Q;
     true_heading := field 128 137 binary;
     timestamp_sec := field 137 143 binary |}.

(** The static record of a decoded message, if it is one. *)
Definition static_of (m : option DecodedMessage) : option StaticVoyageData :=
  match m with
  | Some (Static s) => Some s
  | _ => None
  end.

(** The four ranges of payload characters the decoder gives a value. *)
Definition armored (char : ascii) : Prop :=
  char = "@"%char
  \/ ord "A" <= ord char <= ord "W"
  \/ ord "a" <= ord char <= ord "w"
  \/ ord "0" <= ord char <= ord "9".

(** Modelled from the spec: the re-encoder of the round-trip property of
    section 8, which the repository does not contain.  A value is written
    as the character the table of section 4.2 lists for it
    (['@'] for 0, ['A'..'W'] for 1..23, ['a'..'o'] for 33..47 and
    ['0'..'9'] for 48..57, where a digit and a letter share a value). *)
Definition armor_char (val : Z) : option ascii :=
  if val =? 0 then Some "@"%char
  else if (1 <=? val) && (val <=? 23) then Some (chr (val - 1 + ord "A"))
  else if (33 <=? val) && (val <=? 47) then Some (chr (val - 33 + ord "a"))
  else if (48 <=? val) && (val <=? 57) then Some (chr (val - 48 + ord "0"))
  else None.

(** No character of [s] is white space. *)
Fixpoint no_space (s : string) : Prop :=
  match s with
  | EmptyString => True
  | String c rest => isspace c = false /\ no_space rest
  end.

(** The vessel [mmsi r] has a stored position that is more than 0 and less
    than 3600 seconds older than the report [r]. *)
Definition in_window (st : State) (r : PositionReport) : Prop :=
  exists last_pos : LastPosition,
    ship_last_positions st !! mmsi r = Some last_pos
    /\ 0 < timestamp r - lp_timestamp last_pos < 3600.

(** The rows of a state are all real fixes. *)
Definition no_dead_reckoning (st : State) : Prop :=
  Forall (fun tp => is_dead_reckoned tp = false) (ship_data st).

(** The payload of the line quoted in [parse_nmea_line]. *)
Definition fixture_payload : string := "24SR`F0000QPgE0OoVBUUrUj0@R9".

(** The line quoted in [parse_nmea_line], as [debug_regex.py] spells it. *)
Definition fixture_line : string :=
  "\s:KlaipedaVTS,c:1758574798*59\!AIVDM,1,1,,B,24SR`F0000QPgE0OoVBUUrUj0@R9,0*75".

(** A type-1 payload of 28 characters (168 bits) whose latitude field
    ([89,116)) is the sentinel [0x3412140]; its longitude field is 0. *)
Definition missing_fix_payload : string := "A@@@@@@@@@@@@@@4DaP@@@@@@@@@".

(** A type-1 payload of 28 characters with MMSI 1, longitude field 0 and
    latitude field 0. *)
Definition full_fix_payload : string := "A@@@@@P@@@@@@@@@@@@@@@@@@@@@".

(** A type-5 payload whose vessel-name field ([112,232)) starts with the
    6-bit groups 1, 32, 2, 0. *)
Definition static_payload_name_32 : string :=
  "E@@@@@@@@@@@@@@@@@@F@H@@@@@@@@@@@@@@@@@@@@@@@@@@@@@@@@@@@@@@@@@@@@@@@@@@".

(** A type-5 payload whose ship-type field ([232,240)) is 65. *)
Definition static_payload_type_65 : string :=
  "E@@@@@@@@@@@@@@@@@@@@@@@@@@@@@@@@@@@@@AA@@@@@@@@@@@@@@@@@@@@@@@@@@@@@@@".

(** A rational stand-in for the [math] module (pi as 355/113 and the first
    terms of the power series), to run the calculator and the pipeline on
    concrete inputs. *)
Definition sample_math : MathLib :=
  {| radians := fun x => (x * (355 / 113) / 180)%Q;
     degrees := fun x => (x * 180 / (355 / 113))%Q;
     cos := fun x => (1 - x * x / 2)%Q;
     sin := fun x => (x - x * x * x / 6)%Q;
     asin := fun x => (x + x * x * x / 6)%Q;
     atan2 := fun y x => (y / x)%Q |}.

(** Three reports of one vessel: a full fix, and two reports without
    coordinates 300 and 4000 seconds later. *)
Definition report_t0 : PositionReport :=
  {| timestamp := 1758574798; mmsi := 277123456; message_type := 1;
     nav_status := 0; rot := 0; sog := 12; position_accuracy := 1;
     lat := Some 55.7%Q; lon := Some 21.1%Q; cog := 90;
     true_heading := 90; timestamp_sec := 58 |}.

(** The report of the same vessel at [t], without coordinates. *)
Definition missing_fix_at (t : Z) : PositionReport :=
  {| timestamp := t; mmsi := 277123456; message_type := 1;
     nav_status := 0; rot := 0; sog := 12; position_accuracy := 0;
     lat := None; lon := None; cog := 90;
     true_heading := 90; timestamp_sec := 58 |}.

(** The values of the armored characters of a payload, in order; the
    characters [_ais_to_binary] skips are left out. *)
Fixpoint armored_values (ais_data : string) : list Z :=
  match ais_data with
  | EmptyString => []
  | String char rest =>
      match armor_value char with
      | Some val => val :: armored_values rest
      | None => armored_values rest
      end
  end.

(** The characters [_decode_text] can produce: the digits and the 32
    characters from ['@'] to ['_'] (the capital letters among them). *)
Definition text_alphabet (c : ascii) : Prop :=
  ord "0" <= ord c <= ord "9" \/ ord "@" <= ord c <= ord "_".

(** The characters of a string are all in the text alphabet. *)
Fixpoint text_only (s : string) : Prop :=
  match s with
  | EmptyString => True
  | String c rest => text_alphabet c /\ text_only rest
  end.

(** The text the alphabet of [_decode_text] gives for a list of 6-bit
    values, the values without a character left out. *)
Fixpoint text_of_values (vals : list Z) : string :=
  match vals with
  | [] => EmptyString
  | val :: rest =>
      match text_char val with
      | Some c => String c (text_of_values rest)
      | None => text_of_values rest
      end
  end.

(** [needle in s]: the string [s] has [needle] as a substring. *)
Definition contains (needle s : string) : Prop :=
  exists pre post : string, s = (pre ++ needle ++ post)%string.

(** The characters of a string all satisfy [f]. *)
Fixpoint all_chars (f : ascii -> bool) (s : string) : Prop :=
  match s with
  | EmptyString => True
  | String c rest => f c = true /\ all_chars f rest
  end.

(** The MMSI a parsed message is filed under ([parsed['mmsi']]). *)
Definition message_mmsi (parsed : DecodedMessage) : Z :=
  match parsed with
  | Position r => mmsi r
  | Static s => sv_mmsi s
  end.

(** The ranges of the fields of a row that comes from a decoded report. *)
Definition valid_row (tp : TrackPoint) : Prop :=
  0 <= tp_timestamp tp <= MAX_TIMESTAMP
  /\ 0 <= tp_mmsi tp < 2 ^ 30
  /\ (-90 < tp_lat tp /\ tp_lat tp <= 90)%Q
  /\ (-180 < tp_lon tp /\ tp_lon tp <= 180)%Q
  /\ (0 <= tp_sog tp /\ tp_sog tp <= 102.3)%Q
  /\ (0 <= tp_cog tp /\ tp_cog tp <= 409.5)%Q
  /\ 0 <= tp_nav_status tp < 16
  /\ 0 <= tp_position_accuracy tp <= 1
  /\ 0 <= tp_true_heading tp < 512.

(** A position of the hybrid processor with both coordinates. *)
Definition has_fix (pos : HybridPosition) : Prop :=
  is_Some (hp_lat pos) /\ is_Some (hp_lon pos).

(** A track position of the hybrid processor at time [t], with the fix
    (55.7, 21.1) or without coordinates. *)
Definition hybrid_position (t : Q) (with_fix : bool) : HybridPosition :=
  {| hp_timestamp := t;
     hp_lat := if with_fix then Some 55.7%Q else None;
     hp_lon := if with_fix then Some 21.1%Q else None;
     hp_sog := 12; hp_cog := 90; hp_nav_status := 0;
     hp_position_accuracy := 1; hp_true_heading := 90;
     hp_is_dead_reckoned := false; hp_is_synthetic := true |}.

(** The ranges of the fields of a position report that left the decoder. *)
Definition valid_report (r : PositionReport) : Prop :=
  0 <= mmsi r < 2 ^ 30
  /\ 0 <= nav_status r < 16
  /\ 0 <= rot r < 256
  /\ (0 <= sog r /\ sog r <= 102.3)%Q
  /\ 0 <= position_accuracy r <= 1
  /\ (0 <= cog r /\ cog r <= 409.5)%Q
  /\ 0 <= true_heading r < 512
  /\ 0 <= timestamp_sec r < 64
  /\ exists la lo : Q,
       lat r = Some la /\ lon r = Some lo
       /\ (-90 < la /\ la <= 90)%Q /\ (-180 < lo /\ lo <= 180)%Q.

(** * Properties *)

(** ** Bit strings *)

Lemma length_slice {A} (a b : nat) (s : list A) :
  (a <= b)%nat -> (b <= length s)%nat -> length (slice a b s) = (b - a)%nat.
Proof.
  intros Hab Hb. unfold slice. rewrite length_take, length_drop. lia.
Qed.

Lemma int2_nonempty (bits : list bool) :
  bits <> [] -> int2 bits = Some (bits_value bits).
Proof. destruct bits; [congruence | reflexivity]. Qed.

(** A full, non-empty slice is always a valid argument of [int(_, 2)]. *)
Lemma int2_slice (a b : nat) (s : list bool) :
  (a < b)%nat -> (b <= length s)%nat ->
  int2 (slice a b s) = Some (bits_value (slice a b s)).
Proof.
  intros Hab Hb. apply int2_nonempty. intros E.
  apply (f_equal length) in E. rewrite length_slice in E by lia.
  simpl in E. lia.
Qed.

Lemma bits_value_acc (bits : list bool) (acc : Z) :
  fold_left (fun a (b : bool) => 2 * a + (if b then 1 else 0)) bits acc
  = acc * 2 ^ Z.of_nat (length bits) + bits_value bits.
Proof.
  unfold bits_value. revert acc.
  induction bits as [|b bits IH]; intros acc.
  - simpl. lia.
  - cbn [fold_left length]. rewrite IH, (IH (2 * 0 + _)).
    rewrite Nat2Z.inj_succ, Z.pow_succ_r by lia. ring.
Qed.

Lemma bits_value_cons (b : bool) (bits : list bool) :
  bits_value (b :: bits)
  = (if b then 1 else 0) * 2 ^ Z.of_nat (length bits) + bits_value bits.
Proof.
  unfold bits_value at 1. cbn [fold_left]. rewrite bits_value_acc. ring.
Qed.

(** A string of [n] binary digits denotes a number in [0, 2^n). *)
Lemma bits_value_range (bits : list bool) :
  0 <= bits_value bits < 2 ^ Z.of_nat (length bits).
Proof.
  induction bits as [|b bits IH].
  - cbn. lia.
  - rewrite bits_value_cons. cbn [length].
    rewrite Nat2Z.inj_succ, Z.pow_succ_r by lia.
    destruct b; lia.
Qed.

Lemma slice_value_range (a b : nat) (s : list bool) :
  (a <= b)%nat -> (b <= length s)%nat ->
  0 <= bits_value (slice a b s) < 2 ^ Z.of_nat (b - a).
Proof.
  intros Hab Hb. rewrite <- (length_slice a b s) by lia. apply bits_value_range.
Qed.

Lemma bits_value_snoc (bits : list bool) (b : bool) :
  bits_value (bits ++ [b]) = 2 * bits_value bits + (if b then 1 else 0).
Proof. unfold bits_value. rewrite fold_left_app. reflexivity. Qed.

Lemma bits_value_pos_bin (p : positive) : bits_value (pos_bin p) = Zpos p.
Proof.
  induction p as [p IH|p IH|]; cbn [pos_bin];
    rewrite ?bits_value_snoc, ?IH; [lia | lia | reflexivity].
Qed.

Lemma bits_value_zeros (n : nat) (bits : list bool) :
  bits_value (replicate n false ++ bits) = bits_value bits.
Proof.
  induction n as [|n IH]; [reflexivity|].
  cbn [replicate app]. rewrite bits_value_cons, IH. lia.
Qed.

(** Reading back what [format(val, '06b')] wrote gives [val]. *)
Lemma bits_value_format_06b (val : Z) :
  0 <= val -> bits_value (format_06b val) = val.
Proof.
  intros Hval. unfold format_06b. rewrite bits_value_zeros.
  destruct val as [|p|p]; [reflexivity | apply bits_value_pos_bin | lia].
Qed.

(** A value below 64 is written with exactly six digits. *)
Lemma length_format_06b (val : Z) :
  0 <= val < 64 -> length (format_06b val) = 6%nat.
Proof.
  intros Hval.
  assert (Hall : forallb (fun n => (length (format_06b (Z.of_nat n)) =? 6)%nat)
                         (seq 0 64) = true) by (vm_compute; reflexivity).
  rewrite forallb_forall in Hall.
  specialize (Hall (Z.to_nat val)).
  rewrite Z2Nat.id in Hall by lia.
  apply Nat.eqb_eq, Hall, in_seq. lia.
Qed.

(** ** The 6-bit payload decoder *)

Lemma ord_inj (c d : ascii) : ord c = ord d -> c = d.
Proof.
  unfold ord. intros E. apply N2Z.inj in E.
  rewrite <- (ascii_N_embedding c), <- (ascii_N_embedding d). congruence.
Qed.

Lemma ord_range (c : ascii) : 0 <= ord c < 256.
Proof. unfold ord. pose proof (N_ascii_bounded c). lia. Qed.

Lemma ord_chr (z : Z) : 0 <= z < 256 -> ord (chr z) = z.
Proof.
  intros Hz. unfold ord, chr. rewrite N_ascii_embedding by lia. lia.
Qed.

Lemma char_between_spec (lo c hi : ascii) :
  char_between lo c hi = true <-> ord lo <= ord c <= ord hi.
Proof. unfold char_between. rewrite andb_true_iff, !Z.leb_le. tauto. Qed.

Lemma char_between_false (lo c hi : ascii) :
  ord c < ord lo \/ ord hi < ord c -> char_between lo c hi = false.
Proof.
  intros H. unfold char_between. apply andb_false_iff.
  rewrite !Z.leb_gt. tauto.
Qed.

Lemma ascii_eqb_false (c d : ascii) : ord c <> ord d -> Ascii.eqb c d = false.
Proof. intros H. apply Ascii.eqb_neq. congruence. Qed.

(** Evaluates [ord] of every character literal in the goal and context. *)
Ltac ord_eval :=
  repeat match goal with
    | |- context [ord (Ascii ?a ?b ?c ?d ?e ?f ?g ?h)] =>
        let v := eval vm_compute in (ord (Ascii a b c d e f g h)) in
        change (ord (Ascii a b c d e f g h)) with v
    | H : context [ord (Ascii ?a ?b ?c ?d ?e ?f ?g ?h)] |- _ =>
        let v := eval vm_compute in (ord (Ascii a b c d e f g h)) in
        change (ord (Ascii a b c d e f g h)) with v in H
    end.

Ltac ord_lia := ord_eval; lia.

(** The value table of the decoder, range by range. *)
Lemma armor_value_table (char : ascii) :
  (char = "@"%char -> armor_value char = Some 0)
  /\ (ord "A" <= ord char <= ord "W" ->
      armor_value char = Some (ord char - ord "A" + 1))
  /\ (ord "a" <= ord char <= ord "w" ->
      armor_value char = Some (ord char - ord "a" + 33))
  /\ (ord "0" <= ord char <= ord "9" ->
      armor_value char = Some (ord char - ord "0" + 48)).
Proof.
  unfold armor_value. repeat split.
  - intros ->. reflexivity.
  - intros H. rewrite ascii_eqb_false by ord_lia.
    rewrite (proj2 (char_between_spec "A" char "W")) by ord_lia. reflexivity.
  - intros H. rewrite ascii_eqb_false by ord_lia.
    rewrite (char_between_false "A" char "W") by ord_lia.
    rewrite (proj2 (char_between_spec "a" char "w")) by ord_lia. reflexivity.
  - intros H. rewrite ascii_eqb_false by ord_lia.
    rewrite (char_between_false "A" char "W") by ord_lia.
    rewrite (char_between_false "a" char "w") by ord_lia.
    rewrite (proj2 (char_between_spec "0" char "9")) by ord_lia. reflexivity.
Qed.

(** The values the decoder assigns: 0, 1..23 and 33..57. *)
Lemma armor_value_cases (char : ascii) (val : Z) :
  armor_value char = Some val ->
  val = 0 \/ 1 <= val <= 23 \/ 33 <= val <= 57.
Proof.
  unfold armor_value.
  destruct (Ascii.eqb char "@"); [intros [= <-]; lia|].
  destruct (char_between "A" char "W") eqn:E1;
    [apply char_between_spec in E1; intros [= <-]; ord_lia|].
  destruct (char_between "a" char "w") eqn:E2;
    [apply char_between_spec in E2; intros [= <-]; ord_lia|].
  destruct (char_between "0" char "9") eqn:E3;
    [apply char_between_spec in E3; intros [= <-]; ord_lia|].
  discriminate.
Qed.

(** Every value the decoder assigns fits in six bits. *)
Lemma armor_value_range (char : ascii) (val : Z) :
  armor_value char = Some val -> 0 <= val <= 57.
Proof. intros H. apply armor_value_cases in H. lia. Qed.

(** The re-encoder is a right inverse of the decoder on the decoder's
    values. *)
Lemma armor_value_armor_char (val : Z) (char : ascii) :
  armor_char val = Some char -> armor_value char = Some val.
Proof.
  unfold armor_char.
  destruct (Z.eqb_spec val 0) as [->|H0]; [intros [= <-]; reflexivity|].
  destruct ((1 <=? val) && (val <=? 23)) eqn:E1.
  { apply andb_true_iff in E1 as [?%Z.leb_le ?%Z.leb_le]. intros [= <-].
    destruct (armor_value_table (chr (val - 1 + ord "A"))) as (_ & T & _).
    rewrite T; rewrite ord_chr; try ord_lia. f_equal. ord_lia. }
  destruct ((33 <=? val) && (val <=? 47)) eqn:E2.
  { apply andb_true_iff in E2 as [?%Z.leb_le ?%Z.leb_le]. intros [= <-].
    destruct (armor_value_table (chr (val - 33 + ord "a"))) as (_ & _ & T & _).
    rewrite T; rewrite ord_chr; try ord_lia. f_equal. ord_lia. }
  destruct ((48 <=? val) && (val <=? 57)) eqn:E3; [|discriminate].
  apply andb_true_iff in E3 as [?%Z.leb_le ?%Z.leb_le]. intros [= <-].
  destruct (armor_value_table (chr (val - 48 + ord "0"))) as (_ & _ & _ & T).
  rewrite T; rewrite ord_chr; try ord_lia. f_equal. ord_lia.
Qed.

Lemma armor_char_defined (char : ascii) (val : Z) :
  armor_value char = Some val -> is_Some (armor_char val).
Proof.
  intros Hv%armor_value_cases. unfold armor_char.
  destruct (Z.eqb_spec val 0); [eauto|].
  destruct (Z.leb_spec 1 val), (Z.leb_spec val 23); cbn [andb]; eauto; try lia;
  destruct (Z.leb_spec 33 val), (Z.leb_spec val 47); cbn [andb]; eauto; try lia;
  destruct (Z.leb_spec 48 val), (Z.leb_spec val 57); cbn [andb]; eauto; lia.
Qed.

(** C5.  For every character of the four armored ranges (['@'],
    ['A'..'W'], ['a'..'w'], ['0'..'9']) the decoder assigns the value of the
    table (0, 1..23, 33..55, 48..57), writes it as exactly six binary digits
    that read back as that value, and re-encoding the value gives a
    character that decodes to the same value and the same six bits. *)
Theorem armor_roundtrip (char : ascii) :
  armored char ->
  exists val : Z,
    armor_value char = Some val
    /\ (char = "@"%char -> val = 0)
    /\ (ord "A" <= ord char <= ord "W" ->
        val = ord char - ord "A" + 1 /\ 1 <= val <= 23)
    /\ (ord "a" <= ord char <= ord "w" ->
        val = ord char - ord "a" + 33 /\ 33 <= val <= 55)
    /\ (ord "0" <= ord char <= ord "9" ->
        val = ord char - ord "0" + 48 /\ 48 <= val <= 57)
    /\ _ais_to_binary (String char EmptyString) = format_06b val
    /\ length (format_06b val) = 6%nat
    /\ int2 (format_06b val) = Some val
    /\ exists char' : ascii,
         armor_char val = Some char'
         /\ armor_value char' = Some val
         /\ _ais_to_binary (String char' EmptyString)
            = _ais_to_binary (String char EmptyString).
Proof.
  intros Harm.
  destruct (armor_value_table char) as (T0 & T1 & T2 & T3).
  assert (exists val, armor_value char = Some val) as [val Hval].
  { destruct Harm as [H|[H|[H|H]]]; eauto. }
  pose proof (armor_value_range _ _ Hval) as Hrange.
  exists val. split; [exact Hval|].
  split; [intros H; rewrite (T0 H) in Hval; congruence|].
  split; [intros H; rewrite (T1 H) in Hval; injection Hval as <-; ord_lia|].
  split; [intros H; rewrite (T2 H) in Hval; injection Hval as <-; ord_lia|].
  split; [intros H; rewrite (T3 H) in Hval; injection Hval as <-; ord_lia|].
  assert (Hlen : length (format_06b val) = 6%nat)
    by (apply length_format_06b; lia).
  split; [cbn [_ais_to_binary]; rewrite Hval; apply app_nil_r|].
  split; [exact Hlen|].
  split.
  { rewrite int2_nonempty, bits_value_format_06b by
      (try lia; intros E; rewrite E in Hlen; discriminate Hlen).
    reflexivity. }
  destruct (armor_char_defined _ _ Hval) as [char' Hchar'].
  exists char'. split; [exact Hchar'|].
  pose proof (armor_value_armor_char _ _ Hchar') as Hback.
  split; [exact Hback|].
  cbn [_ais_to_binary]. rewrite Hval, Hback. reflexivity.
Qed.

Lemma armor_roundtrip_witness :
  armored "K"
  /\ exists val : Z,
       armor_value "K" = Some val /\ val = 11
       /\ int2 (format_06b val) = Some val.
Proof.
  assert (H : armored "K") by (right; left; ord_lia).
  split; [exact H|].
  destruct (armor_roundtrip "K" H) as (val & Hv & _ & HA & _ & _ & _ & _ & Hi & _).
  exists val. split; [exact Hv|]. split; [|exact Hi].
  apply HA. ord_lia.
Defined.

(** ** Truncated bit streams *)

(** C6.  Whatever its bits are, a bit stream shorter than 168 bits yields no
    position report, and one shorter than 424 bits yields no static/voyage
    record. *)
Theorem truncated_bitstream_rejected
    (binary : list bool) (timestamp msg_type : Z) :
  ((length binary < 168)%nat ->
   _parse_position_report binary timestamp msg_type = None)
  /\ ((length binary < 424)%nat ->
      _parse_static_voyage_data binary timestamp = None).
Proof.
  split; intros Hlen.
  - unfold _parse_position_report.
    destruct (Nat.ltb_spec (length binary) 168); [reflexivity | lia].
  - unfold _parse_static_voyage_data.
    destruct (Nat.ltb_spec (length binary) 424); [reflexivity | lia].
Qed.

Lemma truncated_bitstream_rejected_witness :
  (length (replicate 167 true) < 168)%nat
  /\ _parse_position_report (replicate 167 true) 1758574798 1 = None
  /\ _parse_static_voyage_data (replicate 167 true) 1758574798 = None.
Proof.
  assert (H : (length (replicate 167 true) < 168)%nat)
    by (rewrite length_replicate; lia).
  destruct (truncated_bitstream_rejected (replicate 167 true) 1758574798 1)
    as [Hp Hs].
  split; [exact H|]. split; [apply Hp; exact H|].
  apply Hs. rewrite length_replicate. lia.
Defined.

(** ** The regression fixture *)

(** C4.  What the code does on the regression payload at epoch 1758574798:
    the first character ['2'] is given the value 50, so the message kind
    read from the first six bits is 50, not 1, 2 or 3; the character ['`']
    is skipped, leaving 162 bits; the dispatcher returns no record, from the
    payload and from the whole line alike. *)
Theorem fixture_payload_not_decoded :
  armor_value "2" = Some 50
  /\ armor_value "`" = None
  /\ length (_ais_to_binary fixture_payload) = 162%nat
  /\ int2 (slice 0 6 (_ais_to_binary fixture_payload)) = Some 50
  /\ parse_ais_message fixture_payload 1758574798 = None
  /\ re_search match_timestamp fixture_line = Some "1758574798"
  /\ re_search match_aivdm fixture_line = Some fixture_payload
  /\ parse_nmea_line fixture_line = None.
Proof. vm_compute. repeat split; reflexivity. Qed.

(** ** The text decoder *)

(** The alphabet of [_decode_text] as the [elif] chain computes it: the
    test [char_val <= 36] comes before [char_val == 32], so 32 is a digit. *)
Lemma text_char_table (char_val : Z) :
  (1 <= char_val <= 26 -> text_char char_val = Some (chr (ord "A" + char_val - 1)))
  /\ (27 <= char_val <= 36 -> text_char char_val = Some (chr (ord "0" + char_val - 27)))
  /\ (char_val = 37 -> text_char char_val = Some "@"%char)
  /\ (char_val = 38 -> text_char char_val = Some "["%char)
  /\ (char_val = 39 -> text_char char_val = Some "\"%char)
  /\ (char_val = 40 -> text_char char_val = Some "]"%char)
  /\ (char_val = 41 -> text_char char_val = Some "^"%char)
  /\ (char_val = 42 -> text_char char_val = Some "_"%char)
  /\ (43 <= char_val -> text_char char_val = None).
Proof.
  unfold text_char. repeat split; intros H; subst; try reflexivity.
  - destruct (Z.leb_spec char_val 26); [reflexivity | lia].
  - destruct (Z.leb_spec char_val 26); [lia|].
    destruct (Z.leb_spec char_val 36); [reflexivity | lia].
  - destruct (Z.leb_spec char_val 26); [lia|].
    destruct (Z.leb_spec char_val 36); [lia|].
    repeat match goal with
           | |- context [char_val =? ?n] =>
               destruct (Z.eqb_spec char_val n); [lia|]
           end.
    reflexivity.
Qed.

(** No character of the alphabet is white space. *)
Lemma text_char_not_space (char_val : Z) (c : ascii) :
  0 < char_val -> text_char char_val = Some c -> isspace c = false.
Proof.
  intros Hpos. unfold text_char.
  destruct (Z.leb_spec char_val 26).
  { intros [= <-]. unfold isspace. rewrite ord_chr by ord_lia.
    ord_eval. lia. }
  destruct (Z.leb_spec char_val 36).
  { intros [= <-]. unfold isspace. rewrite ord_chr by ord_lia.
    ord_eval. lia. }
  destruct (Z.eqb_spec char_val 32); [lia|].
  repeat match goal with
         | |- context [if ?b then _ else _] =>
             destruct b; [intros [= <-]; reflexivity|]
         end.
  discriminate.
Qed.

Lemma strip_no_space (s : string) : no_space s -> strip s = s.
Proof.
  unfold strip. intros H.
  assert (Hl : lstrip s = s) by (destruct s as [|c s]; cbn in *; [|destruct H as [-> _]]; reflexivity).
  rewrite Hl. clear Hl.
  induction s as [|c s IH]; [reflexivity|].
  destruct H as [Hc Hs]. cbn [rstrip]. rewrite (IH Hs), Hc.
  destruct s; reflexivity.
Qed.

Lemma decode_text_loop_no_space (binary : list bool) :
  no_space (decode_text_loop binary).
Proof.
  remember (length binary) as n eqn:Hn.
  revert binary Hn. induction n as [n IH] using lt_wf_ind. intros binary Hn.
  destruct binary as [|b0 [|b1 [|b2 [|b3 [|b4 [|b5 rest]]]]]]; try exact I.
  cbn [decode_text_loop].
  set (char_val := bits_value [b0; b1; b2; b3; b4; b5]).
  assert (Hrest : no_space (decode_text_loop rest))
    by (apply (IH (length rest)); [subst n; cbn [length]; lia | reflexivity]).
  destruct (Z.eqb_spec char_val 0) as [|Hnz]; [exact I|].
  destruct (text_char char_val) as [c|] eqn:Hc; [|exact Hrest].
  split; [|exact Hrest].
  apply (text_char_not_space char_val); [|exact Hc].
  pose proof (bits_value_range [b0; b1; b2; b3; b4; b5]). fold char_val in H. lia.
Qed.

(** [strip] never removes anything from a decoded text. *)
Lemma _decode_text_loop (binary : list bool) :
  _decode_text binary = decode_text_loop binary.
Proof. apply strip_no_space, decode_text_loop_no_space. Qed.

(** C7.  What the code does with the 6-bit value 32: the branch for the
    space is behind the test [char_val <= 36], so 32 is decoded as the
    digit ['5'] (the sixth digit from 27), alone, between two letters, and
    in the vessel name of a decoded message. *)
Theorem decode_text_value_32 :
  text_char 32 = Some "5"%char
  /\ _decode_text (format_06b 32) = "5"
  /\ _decode_text (format_06b 1 ++ format_06b 32 ++ format_06b 2) = "A5B"
  /\ slice 112 130 (_ais_to_binary static_payload_name_32)
     = (format_06b 1 ++ format_06b 32 ++ format_06b 2)%list
  /\ vessel_name <$> static_of (parse_ais_message static_payload_name_32 1758574798)
     = Some "A5B".
Proof. vm_compute. repeat split; reflexivity. Qed.

(** ** The ship-type table *)

Lemma ship_type_display_passenger (code : Z) :
  60 <= code <= 69 ->
  ship_type_display code =
    if (65 <=? code) && (code <=? 68)
    then ("Unknown (" ++ str_of_int code ++ ")")%string
    else "Passenger".
Proof.
  intros H.
  assert (code = 60 \/ code = 61 \/ code = 62 \/ code = 63 \/ code = 64
          \/ code = 65 \/ code = 66 \/ code = 67 \/ code = 68 \/ code = 69)
    as Hc by lia.
  repeat (destruct Hc as [->|Hc]; [vm_compute; reflexivity|]).
  subst. vm_compute. reflexivity.
Qed.

(** C10.  What the code does for the passenger codes 65 to 68: the table
    has entries for 60..64 and 69 only, so the four codes in between are
    rendered as unknown, in the table and in a decoded message. *)
Theorem ship_type_65_unknown :
  ship_types !! 65 = None
  /\ ship_type_display 64 = "Passenger"
  /\ ship_type_display 65 = "Unknown (65)"
  /\ ship_type_display 66 = "Unknown (66)"
  /\ ship_type_display 67 = "Unknown (67)"
  /\ ship_type_display 68 = "Unknown (68)"
  /\ ship_type_display 69 = "Passenger"
  /\ ship_type <$> static_of (parse_ais_message static_payload_type_65 1758574798)
     = Some 65
  /\ ship_type_name <$> static_of (parse_ais_message static_payload_type_65 1758574798)
     = Some "Unknown (65)".
Proof. vm_compute. repeat split; reflexivity. Qed.

(** ** The position-report decoder *)

(** With 168 bits or more every [int(binary[a:b], 2)] succeeds, and the
    body of the decoder is the coordinate test alone. *)
Lemma _parse_position_report_fields
    (binary : list bool) (timestamp msg_type : Z) :
  (168 <= length binary)%nat ->
  _parse_position_report binary timestamp msg_type =
    match decode_lat (field 89 116 binary), decode_lon (field 61 89 binary) with
    | Some la, Some lo =>
        if Qgtb (Qabs la) 90 || Qgtb (Qabs lo) 180 then None
        else Some (position_fields binary timestamp msg_type (Some la) (Some lo))
    | _, _ => None
    end.
Proof.
  intros Hlen. unfold _parse_position_report.
  destruct (Nat.ltb_spec (length binary) 168) as [|_]; [lia|].
  rewrite !int2_slice by lia. cbn [mbind option_bind].
  unfold field.
  destruct (decode_lat (bits_value (slice 89 116 binary))) as [la|];
    [|reflexivity].
  destruct (decode_lon (bits_value (slice 61 89 binary))) as [lo|];
    reflexivity.
Qed.

Lemma scaled_le (raw lo hi : Z) :
  lo <= raw <= hi ->
  (inject_Z lo / 600000 <= inject_Z raw / 600000 <= inject_Z hi / 600000)%Q.
Proof.
  intros [H1 H2].
  split; apply Qmult_le_compat_r;
    try (rewrite <- Zle_Qle; assumption);
    apply Qinv_le_0_compat; discriminate.
Qed.

Lemma Qgtb_true (x y : Q) : Qgtb x y = true <-> (y < x)%Q.
Proof.
  unfold Qgtb. rewrite negb_true_iff, <- not_true_iff_false, Qle_bool_iff.
  split; [apply Qnot_le_lt | apply Qlt_not_le].
Qed.

Lemma Qgtb_false (x y : Q) : Qgtb x y = false <-> (x <= y)%Q.
Proof. unfold Qgtb. rewrite negb_false_iff. apply Qle_bool_iff. Qed.

(** A 27-bit latitude field never leaves [-90, 90] after the correction. *)
Lemma decode_lat_in_range (lat_raw : Z) (la : Q) :
  0 <= lat_raw < 2 ^ 27 ->
  decode_lat lat_raw = Some la -> Qgtb (Qabs la) 90 = false.
Proof.
  intros Hraw. unfold decode_lat.
  destruct (lat_raw =? 54600000); [discriminate|].
  pose proof (scaled_le lat_raw 0 (2 ^ 27 - 1) ltac:(lia)) as [A B].
  set (x := (inject_Z lat_raw / 600000)%Q) in *.
  change (inject_Z 0 / 600000)%Q with (0 # 600000)%Q in A.
  vm_compute (inject_Z (2 ^ 27 - 1) / 600000)%Q in B.
  intros [= <-]. apply Qgtb_false, Qabs_Qle_condition.
  destruct (Qgtb x 90) eqn:E;
    [apply Qgtb_true in E | apply Qgtb_false in E]; split; lra.
Qed.

(** A 28-bit longitude field never leaves [-180, 180] after the
    correction. *)
Lemma decode_lon_in_range (lon_raw : Z) (lo : Q) :
  0 <= lon_raw < 2 ^ 28 ->
  decode_lon lon_raw = Some lo -> Qgtb (Qabs lo) 180 = false.
Proof.
  intros Hraw. unfold decode_lon.
  destruct (lon_raw =? 108600000); [discriminate|].
  pose proof (scaled_le lon_raw 0 (2 ^ 28 - 1) ltac:(lia)) as [A B].
  set (x := (inject_Z lon_raw / 600000)%Q) in *.
  change (inject_Z 0 / 600000)%Q with (0 # 600000)%Q in A.
  vm_compute (inject_Z (2 ^ 28 - 1) / 600000)%Q in B.
  intros [= <-]. apply Qgtb_false, Qabs_Qle_condition.
  destruct (Qgtb x 180) eqn:E;
    [apply Qgtb_true in E | apply Qgtb_false in E]; split; lra.
Qed.

(** The range test of line 171 never fires: the decoder rejects a message
    of full length exactly when a coordinate is absent. *)
Lemma _parse_position_report_coordinates
    (binary : list bool) (timestamp msg_type : Z) :
  (168 <= length binary)%nat ->
  _parse_position_report binary timestamp msg_type =
    match decode_lat (field 89 116 binary), decode_lon (field 61 89 binary) with
    | Some la, Some lo =>
        Some (position_fields binary timestamp msg_type (Some la) (Some lo))
    | _, _ => None
    end.
Proof.
  intros Hlen. rewrite _parse_position_report_fields by exact Hlen.
  destruct (decode_lat (field 89 116 binary)) as [la|] eqn:Hla; [|reflexivity].
  destruct (decode_lon (field 61 89 binary)) as [lo|] eqn:Hlo; [|reflexivity].
  apply decode_lat_in_range in Hla;
    [|apply (slice_value_range 89 116); lia].
  apply decode_lon_in_range in Hlo;
    [|apply (slice_value_range 61 89); lia].
  rewrite Hla, Hlo. reflexivity.
Qed.

Lemma decode_lat_sentinel (lat_raw : Z) :
  decode_lat lat_raw = None <-> lat_raw = 0x3412140.
Proof.
  unfold decode_lat.
  destruct (Z.eqb_spec lat_raw 0x3412140); split; congruence.
Qed.

Lemma decode_lon_sentinel (lon_raw : Z) :
  decode_lon lon_raw = None <-> lon_raw = 0x6791AC0.
Proof.
  unfold decode_lon.
  destruct (Z.eqb_spec lon_raw 0x6791AC0); split; congruence.
Qed.

(** C1, as stated, fails: the payload above is a position report of 168
    bits whose latitude is the sentinel, and the decoder (and with it the
    dispatcher) returns no record for it. *)
Lemma sentinel_latitude_rejected :
  length (_ais_to_binary missing_fix_payload) = 168%nat
  /\ field 89 116 (_ais_to_binary missing_fix_payload) = 0x3412140
  /\ decode_lon (field 61 89 (_ais_to_binary missing_fix_payload)) = Some (0 # 600000)%Q
  /\ _parse_position_report (_ais_to_binary missing_fix_payload) 1758574798 1 = None
  /\ parse_ais_message missing_fix_payload 1758574798 = None.
Proof. vm_compute. repeat split; reflexivity. Qed.

(** C1, amended.  For every position-report bit stream of at least 168
    bits: when a decoded coordinate is absent (its field is the sentinel)
    or lies outside [-90, 90] / [-180, 180] after the wraparound
    correction, the decoder returns no record, the whole message is
    rejected; a coordinate is absent exactly when its field is the
    sentinel; and when both are present they lie within the ranges and the
    decoder returns the record of all the navigation fields with both
    coordinates. *)
Theorem position_report_needs_both_coordinates
    (binary : list bool) (timestamp msg_type : Z) :
  (168 <= length binary)%nat ->
  let lat := decode_lat (field 89 116 binary) in
  let lon := decode_lon (field 61 89 binary) in
  (lat = None \/ lon = None
   \/ (exists la : Q, lat = Some la /\ ~ (Qabs la <= 90)%Q)
   \/ (exists lo : Q, lon = Some lo /\ ~ (Qabs lo <= 180)%Q) ->
   _parse_position_report binary timestamp msg_type = None)
  /\ (lat = None <-> field 89 116 binary = 0x3412140)
  /\ (lon = None <-> field 61 89 binary = 0x6791AC0)
  /\ (forall la lo : Q,
        lat = Some la -> lon = Some lo ->
        (Qabs la <= 90)%Q /\ (Qabs lo <= 180)%Q
        /\ _parse_position_report binary timestamp msg_type
           = Some (position_fields binary timestamp msg_type (Some la) (Some lo))).
Proof.
  intros Hlen lat lon.
  assert (Hrange : forall la lo : Q,
             lat = Some la -> lon = Some lo ->
             (Qabs la <= 90)%Q /\ (Qabs lo <= 180)%Q).
  { intros la lo Hla Hlo. split.
    - apply Qgtb_false, (decode_lat_in_range (field 89 116 binary)); [|exact Hla].
      apply (slice_value_range 89 116); lia.
    - apply Qgtb_false, (decode_lon_in_range (field 61 89 binary)); [|exact Hlo].
      apply (slice_value_range 61 89); lia. }
  rewrite _parse_position_report_coordinates by exact Hlen.
  fold lat lon.
  split; [|split; [apply decode_lat_sentinel|split; [apply decode_lon_sentinel|]]].
  - intros [H|[H|[(la & Hla & Hout)|(lo & Hlo & Hout)]]].
    + rewrite H. reflexivity.
    + rewrite H. destruct lat; reflexivity.
    + destruct lon as [lo|] eqn:Hlo; [|rewrite Hla; reflexivity].
      destruct (Hrange la lo Hla eq_refl) as [Hin _]. contradiction.
    + destruct lat as [la|] eqn:Hla; [|reflexivity].
      destruct (Hrange la lo eq_refl Hlo) as [_ Hin]. contradiction.
  - intros la lo Hla Hlo.
    destruct (Hrange la lo Hla Hlo) as [H1 H2].
    rewrite Hla, Hlo. repeat split; assumption.
Qed.

Lemma position_report_needs_both_coordinates_witness :
  _parse_position_report (_ais_to_binary missing_fix_payload) 1758574798 1 = None
  /\ _parse_position_report (_ais_to_binary full_fix_payload) 1758574798 1
     = Some (position_fields (_ais_to_binary full_fix_payload) 1758574798 1
               (Some (0 # 600000)%Q) (Some (0 # 600000)%Q)).
Proof.
  split.
  - apply (position_report_needs_both_coordinates
             (_ais_to_binary missing_fix_payload) 1758574798 1).
    + apply Nat.leb_le. vm_compute. reflexivity.
    + left. vm_compute. reflexivity.
  - apply (position_report_needs_both_coordinates
             (_ais_to_binary full_fix_payload) 1758574798 1).
    + apply Nat.leb_le. vm_compute. reflexivity.
    + vm_compute. reflexivity.
    + vm_compute. reflexivity.
Defined.

(** C8.  For every position-report bit stream of at least 168 bits: the
    latitude field [0x3412140] and the longitude field [0x6791AC0] decode
    to an absent coordinate whatever the other fields are; any other field
    value decodes to the field divided by 600000, less 180 for a latitude
    above 90 and less 360 for a longitude above 180; and a returned record
    carries exactly these coordinates. *)
Theorem coordinate_decoding
    (binary : list bool) (timestamp msg_type : Z) :
  (168 <= length binary)%nat ->
  let lat_raw := field 89 116 binary in
  let lon_raw := field 61 89 binary in
  let lat_deg := (inject_Z lat_raw / 600000)%Q in
  let lon_deg := (inject_Z lon_raw / 600000)%Q in
  (lat_raw = 0x3412140 -> decode_lat lat_raw = None)
  /\ (lon_raw = 0x6791AC0 -> decode_lon lon_raw = None)
  /\ (lat_raw <> 0x3412140 ->
      exists la : Q, decode_lat lat_raw = Some la
        /\ ((lat_deg <= 90)%Q -> la = lat_deg)
        /\ ((90 < lat_deg)%Q -> la = (lat_deg - 180)%Q))
  /\ (lon_raw <> 0x6791AC0 ->
      exists lo : Q, decode_lon lon_raw = Some lo
        /\ ((lon_deg <= 180)%Q -> lo = lon_deg)
        /\ ((180 < lon_deg)%Q -> lo = (lon_deg - 360)%Q))
  /\ (lat_raw <> 0x3412140 -> lon_raw <> 0x6791AC0 ->
      is_Some (_parse_position_report binary timestamp msg_type))
  /\ (forall r : PositionReport,
        _parse_position_report binary timestamp msg_type = Some r ->
        lat r = decode_lat lat_raw /\ lon r = decode_lon lon_raw).
Proof.
  intros Hlen lat_raw lon_raw lat_deg lon_deg.
  split; [apply decode_lat_sentinel|].
  split; [apply decode_lon_sentinel|].
  split.
  { intros Hne. unfold decode_lat.
    destruct (Z.eqb_spec lat_raw 0x3412140) as [|_]; [contradiction|].
    fold lat_deg. eexists. split; [reflexivity|].
    destruct (Qgtb lat_deg 90) eqn:E.
    - apply Qgtb_true in E. split; [intros H; lra | reflexivity].
    - apply Qgtb_false in E. split; [reflexivity | intros H; lra]. }
  split.
  { intros Hne. unfold decode_lon.
    destruct (Z.eqb_spec lon_raw 0x6791AC0) as [|_]; [contradiction|].
    fold lon_deg. eexists. split; [reflexivity|].
    destruct (Qgtb lon_deg 180) eqn:E.
    - apply Qgtb_true in E. split; [intros H; lra | reflexivity].
    - apply Qgtb_false in E. split; [reflexivity | intros H; lra]. }
  rewrite _parse_position_report_coordinates by exact Hlen.
  fold lat_raw lon_raw. split.
  - intros Hlat Hlon.
    destruct (decode_lat lat_raw) as [la|] eqn:Hla;
      [|apply decode_lat_sentinel in Hla; contradiction].
    destruct (decode_lon lon_raw) as [lo|] eqn:Hlo;
      [|apply decode_lon_sentinel in Hlo; contradiction].
    eauto.
  - intros r.
    destruct (decode_lat lat_raw) as [la|]; [|discriminate].
    destruct (decode_lon lon_raw) as [lo|]; [|discriminate].
    intros [= <-]. split; reflexivity.
Qed.

Lemma coordinate_decoding_witness :
  decode_lat (field 89 116 (_ais_to_binary missing_fix_payload)) = None
  /\ exists lo : Q,
       decode_lon (field 61 89 (_ais_to_binary missing_fix_payload)) = Some lo
       /\ lo = (inject_Z 0 / 600000)%Q.
Proof.
  assert (Hlen : (168 <= length (_ais_to_binary missing_fix_payload))%nat)
    by (apply Nat.leb_le; vm_compute; reflexivity).
  destruct (coordinate_decoding (_ais_to_binary missing_fix_payload)
              1758574798 1 Hlen) as (Hlat & _ & _ & Hlon & _).
  split.
  - apply Hlat. vm_compute. reflexivity.
  - destruct Hlon as (lo & Hlo & Hle & _).
    + vm_compute. intros H. discriminate H.
    + exists lo. split; [exact Hlo|]. apply Hle.
      vm_compute. intros H. discriminate H.
Defined.

(** ** The dispatcher *)

(** A position report that leaves the decoder has both coordinates. *)
Lemma _parse_position_report_has_fix
    (binary : list bool) (timestamp msg_type : Z) (r : PositionReport) :
  _parse_position_report binary timestamp msg_type = Some r ->
  is_Some (lat r) /\ is_Some (lon r).
Proof.
  destruct (Nat.ltb_spec (length binary) 168) as [Hlt|Hge].
  - unfold _parse_position_report.
    rewrite (proj2 (Nat.ltb_lt _ _) Hlt). discriminate.
  - rewrite _parse_position_report_coordinates by exact Hge.
    destruct (decode_lat _) as [la|]; [|discriminate].
    destruct (decode_lon _) as [lo|]; [|discriminate].
    intros [= <-]. cbn. eauto.
Qed.

Lemma parse_ais_message_has_fix
    (ais_data : string) (timestamp : Z) (r : PositionReport) :
  parse_ais_message ais_data timestamp = Some (Position r) ->
  is_position_type (message_type r) = true
  /\ is_Some (lat r) /\ is_Some (lon r).
Proof.
  unfold parse_ais_message.
  destruct (_ais_to_binary ais_data) as [|b binary] eqn:Hbin; [discriminate|].
  rewrite <- Hbin. clear Hbin.
  destruct (int2 _) as [message_type|]; [|discriminate]. cbn [mbind option_bind].
  fold (is_position_type message_type).
  destruct (is_position_type message_type) eqn:Htype.
  - destruct (_parse_position_report _ _ _) as [r'|] eqn:Hr; [|discriminate].
    intros [= <-]. split.
    + unfold _parse_position_report in Hr.
      destruct (_ <? _)%nat; [discriminate|].
      repeat match type of Hr with
             | context [int2 ?s] => destruct (int2 s); [|discriminate]
             end.
      cbn [mbind option_bind] in Hr.
      destruct (decode_lat _); [|discriminate].
      destruct (decode_lon _); [|discriminate].
      destruct (_ || _); [discriminate|].
      injection Hr as <-. exact Htype.
    + eapply _parse_position_report_has_fix, Hr.
  - destruct (message_type =? 5); [|discriminate].
    destruct (_parse_static_voyage_data _ _); discriminate.
Qed.

Lemma parse_nmea_line_has_fix (line : string) (r : PositionReport) :
  parse_nmea_line line = Some (Position r) ->
  is_position_type (message_type r) = true
  /\ is_Some (lat r) /\ is_Some (lon r).
Proof.
  unfold parse_nmea_line.
  destruct (re_search match_timestamp line); [|discriminate].
  cbn [mbind option_bind].
  destruct (fromtimestamp _); [|discriminate]. cbn [mbind option_bind].
  destruct (re_search match_aivdm line); [|discriminate].
  cbn [mbind option_bind]. apply parse_ais_message_has_fix.
Qed.

(** ** The track reconstructor *)

Section Reconstructor.
Context `{M : MathLib}.

Lemma process_position_full_fix (st : State) (r : PositionReport) (la lo : Q) :
  is_position_type (message_type r) = true ->
  lat r = Some la -> lon r = Some lo ->
  process_position st r =
    {| ship_data :=
         ship_data st ++
           [track_point (ship_static_data st !! mmsi r) r la lo (sog r) (cog r) false];
       ship_static_data := ship_static_data st;
       ship_last_positions :=
         <[mmsi r := {| lp_lat := la; lp_lon := lo; lp_sog := sog r;
                        lp_cog := cog r; lp_timestamp := timestamp r |}]>
           (ship_last_positions st) |}.
Proof.
  intros Htype Hlat Hlon. unfold process_position.
  rewrite Htype, Hlat, Hlon. reflexivity.
Qed.

(** What [process_position] does with a report that lacks a coordinate. *)
Lemma process_position_missing_fix (st : State) (r : PositionReport) :
  is_position_type (message_type r) = true ->
  lat r = None \/ lon r = None ->
  process_position st r =
    match ship_last_positions st !! mmsi r with
    | Some last_pos =>
        let time_diff := timestamp r - lp_timestamp last_pos in
        if (time_diff >? 0) && (time_diff <? 3600) then
          let new_pos :=
            calculate_position (lp_lat last_pos) (lp_lon last_pos)
              (lp_sog last_pos) (lp_cog last_pos) (inject_Z time_diff) in
          let sog' := if Qgtb (sog r) 0 then sog r else lp_sog last_pos in
          let cog' := if Qgeb (cog r) 0 then cog r else lp_cog last_pos in
          {| ship_data :=
               ship_data st ++
                 [track_point (ship_static_data st !! mmsi r) r
                    new_pos.1 new_pos.2 sog' cog' true];
             ship_static_data := ship_static_data st;
             ship_last_positions :=
               <[mmsi r := {| lp_lat := new_pos.1; lp_lon := new_pos.2;
                              lp_sog := sog'; lp_cog := cog';
                              lp_timestamp := timestamp r |}]>
                 (ship_last_positions st) |}
        else st
    | None => st
    end.
Proof.
  intros Htype Hmiss. unfold process_position. rewrite Htype.
  assert (forall (X : Type) (full : Q -> Q -> X) (other : X),
            match lat r, lon r with
            | Some la, Some lo => full la lo
            | _, _ => other
            end = other) as ->.
  { intros X full other. destruct Hmiss as [-> | ->];
      [|destruct (lat r)]; reflexivity. }
  destruct (ship_last_positions st !! mmsi r) as [last_pos|]; [|reflexivity].
  cbv zeta. destruct (_ && _); [|reflexivity].
  destruct (calculate_position _ _ _ _ _) as [new_lat new_lon]. reflexivity.
Qed.

Lemma process_line_no_dead_reckoning (st : State) (line : string) :
  no_dead_reckoning st -> no_dead_reckoning (process_line st line).
Proof.
  intros Hst. unfold process_line.
  destruct (parse_nmea_line (strip line)) as [[r|s]|] eqn:Hparse;
    [| exact Hst | exact Hst].
  apply parse_nmea_line_has_fix in Hparse
    as (Htype & [la Hla] & [lo Hlo]).
  cbn [process_parsed].
  rewrite (process_position_full_fix st r la lo Htype Hla Hlo).
  unfold no_dead_reckoning. cbn [ship_data].
  apply Forall_app. split; [exact Hst|].
  repeat constructor.
Qed.

Lemma fold_process_line_no_dead_reckoning (lines : list string) (st : State) :
  no_dead_reckoning st ->
  no_dead_reckoning (fold_left process_line lines st).
Proof.
  revert st. induction lines as [|line lines IH]; intros st Hst.
  - exact Hst.
  - cbn [fold_left]. apply IH, process_line_no_dead_reckoning, Hst.
Qed.

(** C2.  Whatever the lines of the log file are, every row the pipeline
    [process_ais_log_file] returns has [is_dead_reckoned = False]: a
    parsed position report always has both coordinates, so the
    dead-reckoning branch is never taken. *)
Theorem pipeline_never_dead_reckons (lines : list string) :
  Forall (fun tp => is_dead_reckoned tp = false) (process_ais_log_file lines).
Proof.
  unfold process_ais_log_file.
  apply fold_process_line_no_dead_reckoning. constructor.
Qed.

End Reconstructor.

Section DeadReckoningWindow.
Context `{M : MathLib}.

Lemma in_window_test (st : State) (r : PositionReport) (last_pos : LastPosition) :
  ship_last_positions st !! mmsi r = Some last_pos ->
  let time_diff := timestamp r - lp_timestamp last_pos in
  (time_diff >? 0) && (time_diff <? 3600) = true <-> in_window st r.
Proof.
  intros Hlast time_diff.
  rewrite andb_true_iff, Z.gtb_ltb, !Z.ltb_lt. unfold in_window. split.
  - intros H. exists last_pos. split; [exact Hlast | exact H].
  - intros (last_pos' & Hlast' & H).
    rewrite Hlast in Hlast'. injection Hlast' as <-. exact H.
Qed.

Lemma process_position_in_window (st : State) (r : PositionReport) :
  is_position_type (message_type r) = true ->
  lat r = None \/ lon r = None ->
  in_window st r ->
  exists (last_pos : LastPosition) (tp : TrackPoint),
    ship_last_positions st !! mmsi r = Some last_pos
    /\ ship_data (process_position st r) = ship_data st ++ [tp]
    /\ is_dead_reckoned tp = true
    /\ (tp_lat tp, tp_lon tp) =
         calculate_position (lp_lat last_pos) (lp_lon last_pos)
           (lp_sog last_pos) (lp_cog last_pos)
           (inject_Z (timestamp r - lp_timestamp last_pos))
    /\ tp_timestamp tp = timestamp r
    /\ tp_mmsi tp = mmsi r
    /\ ship_static_data (process_position st r) = ship_static_data st
    /\ ship_last_positions (process_position st r) =
         <[mmsi r := {| lp_lat := tp_lat tp; lp_lon := tp_lon tp;
                        lp_sog := tp_sog tp; lp_cog := tp_cog tp;
                        lp_timestamp := timestamp r |}]>
           (ship_last_positions st).
Proof.
  intros Htype Hmiss Hwin.
  rewrite (process_position_missing_fix st r Htype Hmiss).
  destruct Hwin as (last_pos & Hlast & Hwin).
  rewrite Hlast. cbv zeta.
  rewrite (proj2 (in_window_test st r last_pos Hlast))
    by (exists last_pos; split; assumption).
  eexists last_pos, _. split; [reflexivity|].
  cbn [ship_data ship_static_data ship_last_positions].
  split; [reflexivity|]. cbn.
  repeat split. symmetry. apply surjective_pairing.
Qed.

Lemma process_position_out_of_window (st : State) (r : PositionReport) :
  is_position_type (message_type r) = true ->
  lat r = None \/ lon r = None ->
  ~ in_window st r ->
  process_position st r = st.
Proof.
  intros Htype Hmiss Hout.
  rewrite (process_position_missing_fix st r Htype Hmiss).
  destruct (ship_last_positions st !! mmsi r) as [last_pos|] eqn:Hlast;
    [|reflexivity].
  cbv zeta.
  destruct (_ && _) eqn:Htest; [|reflexivity].
  exfalso. apply Hout. apply (in_window_test st r last_pos Hlast), Htest.
Qed.

Lemma in_window_dec (st : State) (r : PositionReport) :
  in_window st r \/ ~ in_window st r.
Proof.
  destruct (ship_last_positions st !! mmsi r) as [last_pos|] eqn:Hlast.
  - pose proof (in_window_test st r last_pos Hlast) as Htest.
    cbv zeta in Htest.
    destruct (_ && _); [left; apply Htest; reflexivity | right; intros H].
    apply Htest in H. discriminate H.
  - right. intros (last_pos & Hlast' & _). congruence.
Qed.

(** C3.  For a position report that lacks a coordinate, the track
    reconstructor appends a dead-reckoned row and stores the estimate
    exactly when the vessel has a stored position whose age [elapsed]
    satisfies [0 < elapsed < 3600]; otherwise it leaves the rows and the
    per-vessel state as they were.  At [elapsed = 3599] the row is
    appended, at [elapsed = 3600] nothing changes.  In particular, for three reports of
    one MMSI, a full fix at [t0] and missing fixes at [t0 + 300] and
    [t0 + 4000], the second yields a dead-reckoned row and the third
    changes nothing. *)
Theorem missing_fix_dead_reckoning_window :
  (forall (st : State) (r : PositionReport),
      is_position_type (message_type r) = true ->
      lat r = None \/ lon r = None ->
      let st' := process_position st r in
      (in_window st r <->
       exists tp : TrackPoint,
         ship_data st' = ship_data st ++ [tp] /\ is_dead_reckoned tp = true)
      /\ (in_window st r ->
          exists (last_pos : LastPosition) (tp : TrackPoint),
            ship_last_positions st !! mmsi r = Some last_pos
            /\ ship_data st' = ship_data st ++ [tp]
            /\ is_dead_reckoned tp = true
            /\ (tp_lat tp, tp_lon tp) =
                 calculate_position (lp_lat last_pos) (lp_lon last_pos)
                   (lp_sog last_pos) (lp_cog last_pos)
                   (inject_Z (timestamp r - lp_timestamp last_pos))
            /\ ship_last_positions st' !! mmsi r =
                 Some {| lp_lat := tp_lat tp; lp_lon := tp_lon tp;
                         lp_sog := tp_sog tp; lp_cog := tp_cog tp;
                         lp_timestamp := timestamp r |})
      /\ (~ in_window st r -> st' = st))
  /\ (forall (st : State) (r : PositionReport) (last_pos : LastPosition),
        is_position_type (message_type r) = true ->
        lat r = None \/ lon r = None ->
        ship_last_positions st !! mmsi r = Some last_pos ->
        let st' := process_position st r in
        (timestamp r - lp_timestamp last_pos = 3599 ->
         exists tp : TrackPoint,
           ship_data st' = ship_data st ++ [tp] /\ is_dead_reckoned tp = true)
        /\ (timestamp r - lp_timestamp last_pos = 3600 -> st' = st))
  /\ (forall (st : State) (r0 r1 r2 : PositionReport) (la lo : Q),
        is_position_type (message_type r0) = true ->
        is_position_type (message_type r1) = true ->
        is_position_type (message_type r2) = true ->
        mmsi r1 = mmsi r0 -> mmsi r2 = mmsi r0 ->
        lat r0 = Some la -> lon r0 = Some lo ->
        lat r1 = None \/ lon r1 = None ->
        lat r2 = None \/ lon r2 = None ->
        timestamp r1 = timestamp r0 + 300 ->
        timestamp r2 = timestamp r0 + 4000 ->
        let st1 := process_position (process_position st r0) r1 in
        let st2 := process_position st1 r2 in
        (exists tp0 tp1 : TrackPoint,
           ship_data st1 = ship_data st ++ [tp0; tp1]
           /\ is_dead_reckoned tp0 = false /\ tp_timestamp tp0 = timestamp r0
           /\ is_dead_reckoned tp1 = true /\ tp_timestamp tp1 = timestamp r1)
        /\ st2 = st1).
Proof.
  split; [|split].
  - intros st r Htype Hmiss st'. subst st'. split; [|split].
    + split.
      * intros Hwin.
        destruct (process_position_in_window st r Htype Hmiss Hwin)
          as (last_pos & tp & _ & Hdata & Hdr & _).
        exists tp. split; assumption.
      * intros (tp & Hdata & _).
        destruct (in_window_dec st r) as [Hwin|Hout]; [exact Hwin|].
        rewrite (process_position_out_of_window st r Htype Hmiss Hout) in Hdata.
        apply (f_equal length) in Hdata.
        rewrite length_app in Hdata. cbn in Hdata. lia.
    + intros Hwin.
      destruct (process_position_in_window st r Htype Hmiss Hwin)
        as (last_pos & tp & Hlast & Hdata & Hdr & Hpos & _ & _ & _ & Hstore).
      exists last_pos, tp. repeat split; try assumption.
      rewrite Hstore. apply lookup_insert_eq.
    + apply process_position_out_of_window; assumption.
  - intros st r last_pos Htype Hmiss Hlast st'. subst st'. split.
    + intros Helapsed.
      destruct (process_position_in_window st r Htype Hmiss)
        as (last_pos' & tp & _ & Hdata & Hdr & _).
      * exists last_pos. split; [exact Hlast | lia].
      * exists tp. split; assumption.
    + intros Helapsed.
      apply process_position_out_of_window; [assumption..|].
      intros (last_pos' & Hlast' & Hwin).
      rewrite Hlast in Hlast'. injection Hlast' as <-. lia.
  - intros st r0 r1 r2 la lo Ht0 Ht1 Ht2 Hm1 Hm2 Hla Hlo Hmiss1 Hmiss2 Htime1 Htime2
           st1 st2.
    set (st0 := process_position st r0) in *.
    assert (Hst0 : st0 = _) by apply (process_position_full_fix st r0 la lo Ht0 Hla Hlo).
    assert (Hwin1 : in_window st0 r1).
    { eexists. rewrite Hst0. cbn [ship_last_positions]. rewrite Hm1.
      split; [apply lookup_insert_eq|]. cbn [lp_timestamp]. lia. }
    destruct (process_position_in_window st0 r1 Ht1 Hmiss1 Hwin1)
      as (last_pos & tp1 & _ & Hdata & Hdr & _ & Hts & _ & _ & Hstore).
    fold st1 in Hdata, Hstore.
    split.
    + eexists _, tp1. rewrite Hdata, Hst0. cbn [ship_data].
      rewrite <- app_assoc. split; [reflexivity|].
      repeat split; assumption.
    + subst st2. apply process_position_out_of_window; [assumption..|].
      intros (last_pos2 & Hlast2 & Hwin2).
      rewrite Hstore, Hm2, Hm1, lookup_insert_eq in Hlast2.
      injection Hlast2 as <-. cbn [lp_timestamp] in Hwin2. lia.
Qed.

End DeadReckoningWindow.

(** ** The dead-reckoning calculator *)

Lemma Qltb_true (x y : Q) : Qltb x y = true <-> (x < y)%Q.
Proof. apply Qgtb_true. Qed.

Lemma Qltb_false (x y : Q) : Qltb x y = false <-> (y <= x)%Q.
Proof. apply Qgtb_false. Qed.

Section Calculator.
Context `{M : MathLib}.
Local Open Scope Q_scope.

Lemma distance_km_zero_speed (sog time_diff_seconds : Q) :
  sog == 0 -> distance_km sog time_diff_seconds == 0.
Proof. intros Hsog. unfold distance_km. rewrite Hsog. field. Qed.

(** C9.  With a speed over ground of 0 the calculator returns the
    starting position, for every starting position, course and elapsed
    time (in particular every elapsed time above 0).  For every input it
    takes the flat-earth formula exactly when the distance
    [sog * 1.852 / 3600 * elapsed] is below 100 km, and the great-circle
    formula with the Earth radius 6371 km when it is 100 km or more. *)
Theorem calculate_position_branches :
  (forall lat1 lon1 sog cog time_diff_seconds : Q,
      sog == 0 ->
      (calculate_position lat1 lon1 sog cog time_diff_seconds).1 == lat1
      /\ (calculate_position lat1 lon1 sog cog time_diff_seconds).2 == lon1)
  /\ (forall lat1 lon1 sog cog time_diff_seconds : Q,
        let distance := sog * 1.852 / 3600 * time_diff_seconds in
        (distance < 100 ->
         calculate_position lat1 lon1 sog cog time_diff_seconds =
           (lat1 + distance * cos (radians cog) / 111,
            lon1 + distance * sin (radians cog) / (111 * cos (radians lat1))))
        /\ (100 <= distance ->
            let angular_distance := distance / 6371 in
            let lat2_rad :=
              asin (sin (radians lat1) * cos angular_distance
                    + cos (radians lat1) * sin angular_distance
                      * cos (radians cog)) in
            calculate_position lat1 lon1 sog cog time_diff_seconds =
              (degrees lat2_rad,
               degrees
                 (radians lon1
                  + atan2 (sin (radians cog) * sin angular_distance
                           * cos (radians lat1))
                          (cos angular_distance
                           - sin (radians lat1) * sin lat2_rad))))).
Proof.
  split.
  - intros lat1 lon1 sog cog t Hsog.
    pose proof (distance_km_zero_speed sog t Hsog) as Hd.
    unfold calculate_position.
    assert (Hlt : Qltb (distance_km sog t) 100 = true)
      by (apply Qltb_true; rewrite Hd; reflexivity).
    rewrite Hlt. unfold flat_earth. cbn [fst snd]. unfold Qdiv.
    rewrite Hd. split; ring.
  - intros lat1 lon1 sog cog t distance. split.
    + intros Hlt. unfold calculate_position.
      change (distance_km sog t) with distance.
      rewrite (proj2 (Qltb_true distance 100) Hlt). reflexivity.
    + intros Hge. cbv zeta. unfold calculate_position.
      change (distance_km sog t) with distance.
      rewrite (proj2 (Qltb_false distance 100) Hge). reflexivity.
Qed.

End Calculator.

(** ** A run of the definitions *)

Lemma calculate_position_branches_witness :
  ((@calculate_position sample_math 55.7 21.1 0 90 300).1 == 55.7)%Q
  /\ @calculate_position sample_math 55.7 21.1 12 0 300 =
       (55.7 + (12 * 1.852 / 3600 * 300)
               * @cos sample_math (@radians sample_math 0) / 111,
        21.1 + (12 * 1.852 / 3600 * 300)
               * @sin sample_math (@radians sample_math 0)
               / (111 * @cos sample_math (@radians sample_math 55.7)))%Q.
Proof.
  destruct (@calculate_position_branches sample_math) as [Hzero Hbranch].
  split.
  - apply (Hzero 55.7 21.1 0 90 300)%Q. reflexivity.
  - apply (Hbranch 55.7 21.1 12 0 300)%Q. vm_compute. reflexivity.
Defined.

Lemma missing_fix_dead_reckoning_window_witness :
  (exists tp0 tp1 : TrackPoint,
     ship_data
       (@process_position sample_math
          (@process_position sample_math initial_state report_t0)
          (missing_fix_at (1758574798 + 300)))
     = [tp0; tp1]
     /\ is_dead_reckoned tp0 = false /\ is_dead_reckoned tp1 = true)
  /\ @process_position sample_math
       (@process_position sample_math
          (@process_position sample_math initial_state report_t0)
          (missing_fix_at (1758574798 + 300)))
       (missing_fix_at (1758574798 + 4000))
     = @process_position sample_math
         (@process_position sample_math initial_state report_t0)
         (missing_fix_at (1758574798 + 300)).
Proof.
  destruct (@missing_fix_dead_reckoning_window sample_math) as (_ & _ & Hseq).
  destruct (Hseq initial_state report_t0
              (missing_fix_at (1758574798 + 300))
              (missing_fix_at (1758574798 + 4000)) 55.7%Q 21.1%Q)
    as [(tp0 & tp1 & Hdata & Hreal & _ & Hdr & _) Hsame];
    try reflexivity; try (left; reflexivity).
  split; [|exact Hsame].
  exists tp0, tp1. repeat split; assumption.
Defined.

(** The pipeline does emit rows: a line carrying [full_fix_payload] gives
    one real fix, and the fixture line gives none. *)
Lemma pipeline_emits_real_fix :
  let line := ("\s:KlaipedaVTS,c:1758574798*59\!AIVDM,1,1,,B,"
               ++ full_fix_payload ++ ",0*75")%string in
  length (@process_ais_log_file sample_math [fixture_line; line; line]) = 2%nat
  /\ @process_ais_log_file sample_math [fixture_line] = [].
Proof. vm_compute. split; reflexivity. Qed.


(** * Further properties of the parser *)

(** ** The bit stream of a payload *)

Lemma _ais_to_binary_concat (ais_data : string) :
  _ais_to_binary ais_data = concat (map format_06b (armored_values ais_data)).
Proof.
  induction ais_data as [|char rest IH]; [reflexivity|].
  cbn [_ais_to_binary armored_values].
  destruct (armor_value char); [|exact IH].
  cbn [map concat]. rewrite IH. reflexivity.
Qed.

Lemma armored_values_range (ais_data : string) :
  Forall (fun val => val = 0 \/ 1 <= val <= 23 \/ 33 <= val <= 57)
         (armored_values ais_data).
Proof.
  induction ais_data as [|char rest IH]; [constructor|].
  cbn [armored_values].
  destruct (armor_value char) as [val|] eqn:Hval; [|exact IH].
  constructor; [apply (armor_value_cases char), Hval | exact IH].
Qed.

Lemma length_concat_format_06b (vals : list Z) :
  Forall (fun val => 0 <= val < 64) vals ->
  length (concat (map format_06b vals)) = (6 * length vals)%nat.
Proof.
  induction 1 as [|val vals Hval _ IH]; [reflexivity|].
  cbn [map concat length]. rewrite length_app, IH, length_format_06b by exact Hval.
  lia.
Qed.

Lemma armored_values_6bit (ais_data : string) :
  Forall (fun val => 0 <= val < 64) (armored_values ais_data).
Proof.
  eapply Forall_impl; [apply armored_values_range|].
  cbn. intros val H. lia.
Qed.


Lemma length__ais_to_binary (ais_data : string) :
  length (_ais_to_binary ais_data) = (6 * length (armored_values ais_data))%nat.
Proof.
  rewrite _ais_to_binary_concat.
  apply length_concat_format_06b, armored_values_6bit.
Qed.


Lemma armored_values_app (s1 s2 : string) :
  armored_values (s1 ++ s2)%string = armored_values s1 ++ armored_values s2.
Proof.
  induction s1 as [|char rest IH]; [reflexivity|].
  change (String char rest ++ s2)%string with (String char (rest ++ s2)%string).
  cbn [armored_values].
  destruct (armor_value char); rewrite IH; reflexivity.
Qed.

(** X2.  Decoding a concatenation of two payloads gives the concatenation
    of their bit streams (a multi-sentence payload can be decoded part by
    part). *)
Theorem ais_to_binary_app (s1 s2 : string) :
  _ais_to_binary (s1 ++ s2)%string = _ais_to_binary s1 ++ _ais_to_binary s2.
Proof.
  rewrite !_ais_to_binary_concat, armored_values_app, map_app, concat_app.
  reflexivity.
Qed.

Lemma slice_concat_format_06b (vals : list Z) (k : nat) (val : Z) :
  Forall (fun val => 0 <= val < 64) vals ->
  vals !! k = Some val ->
  slice (6 * k) (6 * k + 6) (concat (map format_06b vals)) = format_06b val.
Proof.
  intros Hvals. revert k.
  induction Hvals as [|v vals Hv _ IH]; intros k Hk; [discriminate|].
  pose proof (length_format_06b v Hv) as Hlen.
  cbn [map concat]. unfold slice.
  destruct k as [|k].
  - injection Hk as <-.
    change (take 6 (format_06b v ++ concat (map format_06b vals)) = format_06b v).
    rewrite <- Hlen at 1. apply take_app_length.
  - cbn [lookup list_lookup] in Hk. specialize (IH k Hk). unfold slice in IH.
    replace (6 * S k)%nat with (length (format_06b v) + 6 * k)%nat by lia.
    rewrite drop_app_add.
    replace (length (format_06b v) + 6 * k + 6 - (length (format_06b v) + 6 * k))%nat
      with (6 * k + 6 - 6 * k)%nat by lia.
    exact IH.
Qed.

(** X3.  The value read from the [k]-th aligned 6-bit group of a decoded
    payload is the value of its [k]-th armored character; it is 0, in
    1..23 or in 33..57, never in 24..32 or 58..63. *)
Theorem ais_to_binary_group (ais_data : string) (k : nat) (val : Z) :
  armored_values ais_data !! k = Some val ->
  int2 (slice (6 * k) (6 * k + 6) (_ais_to_binary ais_data)) = Some val
  /\ (val = 0 \/ 1 <= val <= 23 \/ 33 <= val <= 57).
Proof.
  intros Hk.
  assert (Hrange : val = 0 \/ 1 <= val <= 23 \/ 33 <= val <= 57).
  { pose proof (armored_values_range ais_data) as Hall.
    rewrite Forall_lookup in Hall. apply (Hall k val Hk). }
  split; [|exact Hrange].
  rewrite _ais_to_binary_concat.
  rewrite (slice_concat_format_06b _ k val (armored_values_6bit ais_data) Hk).
  rewrite int2_nonempty, bits_value_format_06b by
    (try lia; intros E; apply (f_equal length) in E;
     rewrite length_format_06b in E by lia; discriminate E).
  reflexivity.
Qed.

Lemma ais_to_binary_group_witness :
  int2 (slice (6 * 15) (6 * 15 + 6) (_ais_to_binary missing_fix_payload)) = Some 52.
Proof.
  apply (ais_to_binary_group missing_fix_payload 15 52). reflexivity.
Defined.

(** ** The dispatcher and the first character of a payload *)

Lemma _parse_position_report_tags
    (binary : list bool) (timestamp_ msg_type : Z) (r : PositionReport) :
  _parse_position_report binary timestamp_ msg_type = Some r ->
  message_type r = msg_type /\ timestamp r = timestamp_.
Proof.
  destruct (Nat.ltb_spec (length binary) 168) as [Hlt|Hge].
  - unfold _parse_position_report.
    rewrite (proj2 (Nat.ltb_lt _ _) Hlt). discriminate.
  - rewrite _parse_position_report_coordinates by exact Hge.
    destruct (decode_lat _); [|discriminate].
    destruct (decode_lon _); [|discriminate].
    intros [= <-]. split; reflexivity.
Qed.

(** The dispatcher, by the value of the first armored character. *)
Lemma parse_ais_message_dispatch (ais_data : string) (timestamp : Z) :
  parse_ais_message ais_data timestamp =
    match armored_values ais_data with
    | [] => None
    | message_type :: _ =>
        if is_position_type message_type
        then Position <$> _parse_position_report (_ais_to_binary ais_data)
                            timestamp message_type
        else if message_type =? 5
        then Static <$> _parse_static_voyage_data (_ais_to_binary ais_data) timestamp
        else None
    end.
Proof.
  unfold parse_ais_message.
  destruct (armored_values ais_data) as [|val vals] eqn:Hvals.
  - rewrite _ais_to_binary_concat, Hvals. reflexivity.
  - assert (Hgroup : int2 (slice 0 6 (_ais_to_binary ais_data)) = Some val).
    { pose proof (armored_values_6bit ais_data) as H6.
      rewrite _ais_to_binary_concat.
      assert (Hs : armored_values ais_data !! 0%nat = Some val)
        by (rewrite Hvals; reflexivity).
      apply (slice_concat_format_06b _ 0 val H6) in Hs.
      change (slice 0 6 (concat (map format_06b (armored_values ais_data)))
              = format_06b val) in Hs.
      rewrite Hs. rewrite Hvals in H6. apply Forall_cons in H6 as [Hval _].
      rewrite int2_nonempty, bits_value_format_06b by
        (try lia; intros E; apply (f_equal length) in E;
         rewrite length_format_06b in E by lia; discriminate E).
      reflexivity. }
    destruct (_ais_to_binary ais_data) as [|b binary] eqn:Hbin;
      [discriminate Hgroup|].
    rewrite Hgroup. reflexivity.
Qed.

(** X4.  The dispatcher decides by the first armored character alone: a
    position report is returned only when its value is 1, 2 or 3 (the
    characters ['A'], ['B'], ['C']) and then carries that value as its
    message type and the given timestamp; a static record only when it is
    5 (['E']); any other first value, and a payload without armored
    characters, gives no record. *)
Theorem message_dispatch (ais_data : string) (timestamp_ : Z) :
  (forall r : PositionReport,
      parse_ais_message ais_data timestamp_ = Some (Position r) ->
      head (armored_values ais_data) = Some (message_type r)
      /\ (message_type r = 1 \/ message_type r = 2 \/ message_type r = 3)
      /\ timestamp r = timestamp_)
  /\ (forall s : StaticVoyageData,
        parse_ais_message ais_data timestamp_ = Some (Static s) ->
        head (armored_values ais_data) = Some 5 /\ sv_timestamp s = timestamp_)
  /\ (forall val : Z,
        head (armored_values ais_data) = Some val ->
        val <> 1 -> val <> 2 -> val <> 3 -> val <> 5 ->
        parse_ais_message ais_data timestamp_ = None)
  /\ (armored_values ais_data = [] ->
      parse_ais_message ais_data timestamp_ = None).
Proof.
  rewrite parse_ais_message_dispatch.
  destruct (armored_values ais_data) as [|val vals]; cbn [head].
  { repeat split; try discriminate. }
  unfold is_position_type.
  destruct (Z.eqb_spec val 1) as [E1|N1];
    [|destruct (Z.eqb_spec val 2) as [E2|N2];
      [|destruct (Z.eqb_spec val 3) as [E3|N3]]]; cbn [orb].
  1-3: (split; [|split; [|split]]; try discriminate;
        [ intros r Hr;
          destruct (_parse_position_report _ _ _) as [r'|] eqn:Hr';
            [|discriminate];
          injection Hr as <-;
          apply _parse_position_report_tags in Hr' as [-> ->];
          split; [reflexivity|]; split; [lia | reflexivity]
        | intros s Hs; destruct (_parse_position_report _ _ _); discriminate
        | intros v [= <-] ?; lia ]).
  destruct (Z.eqb_spec val 5) as [E5|N5].
  - split; [|split; [|split]]; try discriminate.
    + intros r Hr. destruct (_parse_static_voyage_data _ _); discriminate.
    + intros s Hs. subst val. split; [reflexivity|].
      destruct (_parse_static_voyage_data _ _) as [s'|] eqn:Hs'; [|discriminate].
      injection Hs as <-. unfold _parse_static_voyage_data in Hs'.
      destruct (_ <? _)%nat; [discriminate|].
      repeat match type of Hs' with
             | context [int2 ?b] => destruct (int2 b); [|discriminate]
             end.
      cbn [mbind option_bind] in Hs'. injection Hs' as <-. reflexivity.
    + intros v [= <-] ?; lia.
  - repeat split; try discriminate.
Qed.

Lemma message_dispatch_witness :
  parse_ais_message fixture_payload 1758574798 = None.
Proof.
  destruct (message_dispatch fixture_payload 1758574798) as (_ & _ & H & _).
  apply (H 50); [reflexivity | lia..].
Defined.

(** X5.  A payload that starts with a digit is never decoded: a digit is
    given its own code 48..57 as value, which is no message type the
    dispatcher knows.  (The payloads of the position reports in real
    captures start with ['1'], ['2'] or ['3'].) *)
Theorem digit_payload_never_decoded (char : ascii) (rest : string) (timestamp : Z) :
  isdigit char = true ->
  parse_ais_message (String char rest) timestamp = None.
Proof.
  intros Hdigit. apply char_between_spec in Hdigit.
  rewrite parse_ais_message_dispatch. cbn [armored_values].
  destruct (armor_value_table char) as (_ & _ & _ & T).
  rewrite (T Hdigit).
  assert (48 <= ord char - ord "0" + 48 <= 57) as Hval by ord_lia.
  unfold is_position_type.
  repeat match goal with
         | |- context [?x =? ?n] => destruct (Z.eqb_spec x n); [lia|]
         end.
  reflexivity.
Qed.

Lemma digit_payload_never_decoded_witness :
  parse_ais_message fixture_payload 1758574798 = None.
Proof.
  apply (digit_payload_never_decoded "2" "4SR`F0000QPgE0OoVBUUrUj0@R9").
  reflexivity.
Defined.

(** X6.  A payload with fewer than 28 armored characters never gives a
    position report, and one with fewer than 71 never gives a static
    record. *)
Theorem short_payload_rejected (ais_data : string) (timestamp : Z) :
  ((length (armored_values ais_data) < 28)%nat ->
   forall r : PositionReport,
     parse_ais_message ais_data timestamp <> Some (Position r))
  /\ ((length (armored_values ais_data) < 71)%nat ->
      forall s : StaticVoyageData,
        parse_ais_message ais_data timestamp <> Some (Static s)).
Proof.
  pose proof (length__ais_to_binary ais_data) as Hlen.
  rewrite parse_ais_message_dispatch.
  split; intros Hshort x Hx;
    destruct (armored_values ais_data) as [|val vals]; try discriminate;
    destruct (is_position_type val).
  - unfold _parse_position_report in Hx.
    destruct (Nat.ltb_spec (length (_ais_to_binary ais_data)) 168);
      [discriminate | lia].
  - destruct (val =? 5); [|discriminate].
    destruct (_parse_static_voyage_data _ _); discriminate.
  - destruct (_parse_position_report _ _ _); discriminate.
  - destruct (val =? 5); [|discriminate].
    unfold _parse_static_voyage_data in Hx.
    destruct (Nat.ltb_spec (length (_ais_to_binary ais_data)) 424);
      [discriminate | lia].
Qed.

Lemma short_payload_rejected_witness :
  parse_ais_message "A@@@@@P@@@@@@@@@@@@@@@@@@@@" 1758574798 = None.
Proof.
  destruct (short_payload_rejected "A@@@@@P@@@@@@@@@@@@@@@@@@@@" 1758574798)
    as [Hpos Hstatic].
  destruct (parse_ais_message "A@@@@@P@@@@@@@@@@@@@@@@@@@@" 1758574798)
    as [[r|s]|] eqn:E; [exfalso | exfalso | reflexivity].
  - apply (Hpos ltac:(vm_compute; lia) r). reflexivity.
  - apply (Hstatic ltac:(vm_compute; lia) s). reflexivity.
Defined.

(** ** The records of the two decoders *)

Lemma tenths_le (raw lo hi : Z) :
  lo <= raw <= hi ->
  (inject_Z lo / 10 <= inject_Z raw / 10 <= inject_Z hi / 10)%Q.
Proof.
  intros [H1 H2].
  split; apply Qmult_le_compat_r;
    try (rewrite <- Zle_Qle; assumption);
    apply Qinv_le_0_compat; discriminate.
Qed.

Lemma tenths_range (a b : nat) (binary : list bool) (hi : Z) :
  (a <= b)%nat -> (b <= length binary)%nat -> 2 ^ Z.of_nat (b - a) - 1 = hi ->
  (0 <= inject_Z (field a b binary) / 10
   /\ inject_Z (field a b binary) / 10 <= inject_Z hi / 10)%Q.
Proof.
  intros Hab Hb Hhi.
  pose proof (slice_value_range a b binary Hab Hb) as Hrange.
  fold (field a b binary) in Hrange.
  destruct (tenths_le (field a b binary) 0 hi ltac:(lia)) as [A B].
  change (inject_Z 0 / 10)%Q with (0 # 10)%Q in A.
  split; [lra | exact B].
Qed.

(** A decoded latitude lies in (-90, 90]. *)
Lemma decode_lat_bounds (lat_raw : Z) (la : Q) :
  0 <= lat_raw < 2 ^ 27 ->
  decode_lat lat_raw = Some la -> (-90 < la /\ la <= 90)%Q.
Proof.
  intros Hraw. unfold decode_lat.
  destruct (lat_raw =? 54600000); [discriminate|].
  pose proof (scaled_le lat_raw 0 (2 ^ 27 - 1) ltac:(lia)) as [A B].
  set (x := (inject_Z lat_raw / 600000)%Q) in *.
  change (inject_Z 0 / 600000)%Q with (0 # 600000)%Q in A.
  vm_compute (inject_Z (2 ^ 27 - 1) / 600000)%Q in B.
  intros [= <-].
  destruct (Qgtb x 90) eqn:E;
    [apply Qgtb_true in E | apply Qgtb_false in E]; split; lra.
Qed.

(** A decoded longitude lies in (-180, 180]. *)
Lemma decode_lon_bounds (lon_raw : Z) (lo : Q) :
  0 <= lon_raw < 2 ^ 28 ->
  decode_lon lon_raw = Some lo -> (-180 < lo /\ lo <= 180)%Q.
Proof.
  intros Hraw. unfold decode_lon.
  destruct (lon_raw =? 108600000); [discriminate|].
  pose proof (scaled_le lon_raw 0 (2 ^ 28 - 1) ltac:(lia)) as [A B].
  set (x := (inject_Z lon_raw / 600000)%Q) in *.
  change (inject_Z 0 / 600000)%Q with (0 # 600000)%Q in A.
  vm_compute (inject_Z (2 ^ 28 - 1) / 600000)%Q in B.
  intros [= <-].
  destruct (Qgtb x 180) eqn:E;
    [apply Qgtb_true in E | apply Qgtb_false in E]; split; lra.
Qed.

Lemma _parse_position_report_valid
    (binary : list bool) (timestamp_ msg_type : Z) (r : PositionReport) :
  _parse_position_report binary timestamp_ msg_type = Some r -> valid_report r.
Proof.
  destruct (Nat.ltb_spec (length binary) 168) as [Hlt|Hge].
  { unfold _parse_position_report.
    rewrite (proj2 (Nat.ltb_lt _ _) Hlt). discriminate. }
  rewrite _parse_position_report_coordinates by exact Hge.
  destruct (decode_lat _) as [la|] eqn:Hla; [|discriminate].
  destruct (decode_lon _) as [lo|] eqn:Hlo; [|discriminate].
  intros [= <-]. unfold valid_report, position_fields.
  cbn [mmsi nav_status rot sog position_accuracy cog true_heading
       timestamp_sec lat lon].
  pose proof (slice_value_range 8 38 binary ltac:(lia) ltac:(lia)) as R1.
  pose proof (slice_value_range 38 42 binary ltac:(lia) ltac:(lia)) as R2.
  pose proof (slice_value_range 42 50 binary ltac:(lia) ltac:(lia)) as R3.
  pose proof (slice_value_range 60 61 binary ltac:(lia) ltac:(lia)) as R4.
  pose proof (slice_value_range 128 137 binary ltac:(lia) ltac:(lia)) as R5.
  pose proof (slice_value_range 137 143 binary ltac:(lia) ltac:(lia)) as R6.
  vm_compute (Z.of_nat _) in R1, R2, R3, R4, R5, R6.
  fold (field 8 38 binary) in R1. fold (field 38 42 binary) in R2.
  fold (field 42 50 binary) in R3. fold (field 60 61 binary) in R4.
  fold (field 128 137 binary) in R5. fold (field 137 143 binary) in R6.
  repeat match goal with
         | |- _ /\ _ => split
         end; try lia.
  - apply (tenths_range 50 60 binary 1023); [lia | lia | reflexivity].
  - destruct (tenths_range 50 60 binary 1023) as [_ B]; [lia | lia | reflexivity|].
    vm_compute (inject_Z 1023 / 10)%Q in B. lra.
  - apply (tenths_range 116 128 binary 4095); [lia | lia | reflexivity].
  - destruct (tenths_range 116 128 binary 4095) as [_ B]; [lia | lia | reflexivity|].
    vm_compute (inject_Z 4095 / 10)%Q in B. lra.
  - exists la, lo. split; [reflexivity|]. split; [reflexivity|].
    split.
    + apply (decode_lat_bounds (field 89 116 binary)); [|exact Hla].
      apply (slice_value_range 89 116); lia.
    + apply (decode_lon_bounds (field 61 89 binary)); [|exact Hlo].
      apply (slice_value_range 61 89); lia.
Qed.

(** X7.  Every position report that leaves the decoder has its fields in
    the ranges of their bit widths: MMSI below 2^30, status below 16, rate
    of turn below 256 (read unsigned), speed in [0, 102.3], accuracy 0 or
    1, course in [0, 409.5], heading below 512, second below 64, and both
    coordinates present with latitude in (-90, 90] and longitude in
    (-180, 180]. *)
Theorem position_report_ranges
    (binary : list bool) (timestamp_ msg_type : Z) (r : PositionReport) :
  _parse_position_report binary timestamp_ msg_type = Some r ->
  0 <= mmsi r < 2 ^ 30
  /\ 0 <= nav_status r < 16
  /\ 0 <= rot r < 256
  /\ (0 <= sog r /\ sog r <= 102.3)%Q
  /\ 0 <= position_accuracy r <= 1
  /\ (0 <= cog r /\ cog r <= 409.5)%Q
  /\ 0 <= true_heading r < 512
  /\ 0 <= timestamp_sec r < 64
  /\ exists la lo : Q,
       lat r = Some la /\ lon r = Some lo
       /\ (-90 < la /\ la <= 90)%Q /\ (-180 < lo /\ lo <= 180)%Q.
Proof. apply _parse_position_report_valid. Qed.

Lemma position_report_ranges_witness :
  0 <= mmsi (position_fields (_ais_to_binary full_fix_payload) 1758574798 1
               (Some (0 # 600000)%Q) (Some (0 # 600000)%Q)) < 2 ^ 30.
Proof.
  apply (position_report_ranges (_ais_to_binary full_fix_payload) 1758574798 1).
  vm_compute. reflexivity.
Defined.

(** ** The decoded text *)

Lemma text_char_alphabet (char_val : Z) (c : ascii) :
  0 < char_val -> text_char char_val = Some c -> text_alphabet c.
Proof.
  intros Hpos. unfold text_char, text_alphabet.
  destruct (Z.leb_spec char_val 26).
  { intros [= <-]. right. rewrite ord_chr by ord_lia. ord_lia. }
  destruct (Z.leb_spec char_val 36).
  { intros [= <-]. left. rewrite ord_chr by ord_lia. ord_lia. }
  destruct (Z.eqb_spec char_val 32); [lia|].
  repeat match goal with
         | |- context [if ?b then _ else _] =>
             destruct b; [intros [= <-]; right; ord_lia|]
         end.
  discriminate.
Qed.

(** The loop of [_decode_text], by induction on the 6-bit groups. *)
Lemma decode_text_loop_ind (P : list bool -> string -> Prop) :
  (forall binary, (length binary < 6)%nat -> P binary EmptyString) ->
  (forall b0 b1 b2 b3 b4 b5 rest,
      bits_value [b0; b1; b2; b3; b4; b5] = 0 ->
      P (b0 :: b1 :: b2 :: b3 :: b4 :: b5 :: rest) EmptyString) ->
  (forall b0 b1 b2 b3 b4 b5 rest c,
      0 < bits_value [b0; b1; b2; b3; b4; b5] < 64 ->
      text_char (bits_value [b0; b1; b2; b3; b4; b5]) = Some c ->
      P rest (decode_text_loop rest) ->
      P (b0 :: b1 :: b2 :: b3 :: b4 :: b5 :: rest)
        (String c (decode_text_loop rest))) ->
  (forall b0 b1 b2 b3 b4 b5 rest,
      0 < bits_value [b0; b1; b2; b3; b4; b5] < 64 ->
      text_char (bits_value [b0; b1; b2; b3; b4; b5]) = None ->
      P rest (decode_text_loop rest) ->
      P (b0 :: b1 :: b2 :: b3 :: b4 :: b5 :: rest) (decode_text_loop rest)) ->
  forall binary, P binary (decode_text_loop binary).
Proof.
  intros Hshort Hstop Hchar Hskip binary.
  remember (length binary) as n eqn:Hn.
  revert binary Hn. induction n as [n IH] using lt_wf_ind. intros binary Hn.
  destruct binary as [|b0 [|b1 [|b2 [|b3 [|b4 [|b5 rest]]]]]];
    try (apply Hshort; cbn; lia).
  cbn [decode_text_loop].
  pose proof (bits_value_range [b0; b1; b2; b3; b4; b5]) as Hrange.
  change (2 ^ Z.of_nat (length [b0; b1; b2; b3; b4; b5])) with 64 in Hrange.
  assert (Hrest : P rest (decode_text_loop rest))
    by (apply (IH (length rest)); [subst n; cbn [length]; lia | reflexivity]).
  destruct (Z.eqb_spec (bits_value [b0; b1; b2; b3; b4; b5]) 0) as [Hz|Hnz];
    [apply Hstop, Hz|].
  destruct (text_char _) as [c|] eqn:Hc;
    [apply Hchar | apply Hskip]; try assumption; lia.
Qed.

Lemma decode_text_loop_text_only (binary : list bool) :
  text_only (decode_text_loop binary).
Proof.
  apply (decode_text_loop_ind (fun _ text => text_only text));
    try (intros; exact I); [|intros; assumption].
  intros b0 b1 b2 b3 b4 b5 rest c Hrange Hc Hrest.
  split; [|exact Hrest].
  apply (text_char_alphabet _ c) in Hc; [exact Hc | lia].
Qed.

Lemma length_decode_text_loop (binary : list bool) :
  (6 * String.length (decode_text_loop binary) <= length binary)%nat.
Proof.
  apply (decode_text_loop_ind
           (fun binary text => (6 * String.length text <= length binary)%nat));
    intros; cbn [String.length length] in *; lia.
Qed.

(** X8.  The text decoder returns only digits and characters from ['@'] to
    ['_'] (capital letters, [@ [ \ ] ^ _]): never white space, never a
    lower-case letter; [strip] therefore removes nothing; and the text has
    at most one character for every six bits of the field. *)
Theorem decode_text_alphabet (binary : list bool) :
  text_only (_decode_text binary)
  /\ _decode_text binary = decode_text_loop binary
  /\ (6 * String.length (_decode_text binary) <= length binary)%nat.
Proof.
  assert (H : _decode_text binary = decode_text_loop binary)
    by apply strip_no_space, decode_text_loop_no_space.
  rewrite H. split; [apply decode_text_loop_text_only|].
  split; [reflexivity | apply length_decode_text_loop].
Qed.

Lemma format_06b_six (val : Z) :
  0 <= val < 64 ->
  exists b0 b1 b2 b3 b4 b5 : bool,
    format_06b val = [b0; b1; b2; b3; b4; b5]
    /\ bits_value [b0; b1; b2; b3; b4; b5] = val.
Proof.
  intros Hval.
  pose proof (length_format_06b val Hval) as Hlen.
  pose proof (bits_value_format_06b val ltac:(lia)) as Hbits.
  destruct (format_06b val) as [|b0 [|b1 [|b2 [|b3 [|b4 [|b5 [|b6 l]]]]]]];
    try discriminate Hlen.
  exists b0, b1, b2, b3, b4, b5. split; [reflexivity | exact Hbits].
Qed.

Lemma decode_text_loop_group (val : Z) (rest : list bool) :
  1 <= val <= 63 ->
  decode_text_loop (format_06b val ++ rest) =
    match text_char val with
    | Some c => String c (decode_text_loop rest)
    | None => decode_text_loop rest
    end.
Proof.
  intros Hval.
  destruct (format_06b_six val ltac:(lia)) as (b0 & b1 & b2 & b3 & b4 & b5 & -> & Hbits).
  cbn [app decode_text_loop]. rewrite Hbits.
  destruct (Z.eqb_spec val 0); [lia | reflexivity].
Qed.

Lemma decode_text_loop_short (binary : list bool) :
  (length binary < 6)%nat -> decode_text_loop binary = EmptyString.
Proof.
  intros Hlen.
  destruct binary as [|b0 [|b1 [|b2 [|b3 [|b4 [|b5 rest]]]]]];
    try reflexivity.
  cbn [length] in Hlen. lia.
Qed.

Lemma decode_text_loop_groups (vals : list Z) (rest : list bool) :
  Forall (fun val => 1 <= val <= 63) vals ->
  decode_text_loop rest = EmptyString ->
  decode_text_loop (concat (map format_06b vals) ++ rest) = text_of_values vals.
Proof.
  intros Hvals Hrest.
  induction Hvals as [|val vals Hval _ IH]; [exact Hrest|].
  cbn [map concat text_of_values]. rewrite <- app_assoc.
  rewrite decode_text_loop_group by exact Hval.
  rewrite IH. reflexivity.
Qed.

(** X9.  For 6-bit groups with values in 1..63, the decoded text is the
    sequence of their characters (values without a character skipped);
    decoding stops at the first group of value 0, whatever follows it,
    and a trailing group of fewer than six bits is ignored. *)
Theorem decode_text_of_groups (vals : list Z) (tail : list bool) :
  Forall (fun val => 1 <= val <= 63) vals ->
  _decode_text (concat (map format_06b vals) ++ format_06b 0 ++ tail)
  = text_of_values vals
  /\ ((length tail < 6)%nat ->
      _decode_text (concat (map format_06b vals) ++ tail) = text_of_values vals).
Proof.
  intros Hvals. rewrite !_decode_text_loop. split.
  - apply decode_text_loop_groups; [exact Hvals | reflexivity].
  - intros Hshort.
    apply decode_text_loop_groups; [exact Hvals|].
    apply decode_text_loop_short, Hshort.
Qed.

Lemma decode_text_of_groups_witness :
  _decode_text (concat (map format_06b [11; 50; 28; 37]) ++ format_06b 0
                ++ format_06b 12)
  = "K1@".
Proof.
  apply (decode_text_of_groups [11; 50; 28; 37] (format_06b 12)).
  repeat constructor; lia.
Defined.

(** ** The static/voyage decoder *)

Lemma length__decode_text_slice (a b : nat) (binary : list bool) :
  (a <= b)%nat -> (b <= length binary)%nat ->
  (6 * String.length (_decode_text (slice a b binary)) <= b - a)%nat.
Proof.
  intros Hab Hb. rewrite _decode_text_loop.
  pose proof (length_decode_text_loop (slice a b binary)) as H.
  rewrite length_slice in H by lia. exact H.
Qed.

(** X10.  A bit stream of 424 bits or more always gives a static/voyage
    record: no field is validated.  Its MMSI is below 2^30, its ship type
    below 256 and named by the table, the call sign has at most 7
    characters, the vessel name and the destination at most 20 each, and
    the draught lies in [0, 25.5]. *)
Theorem static_voyage_data_total (binary : list bool) (timestamp_ : Z) :
  (424 <= length binary)%nat ->
  exists s : StaticVoyageData,
    _parse_static_voyage_data binary timestamp_ = Some s
    /\ sv_timestamp s = timestamp_
    /\ sv_mmsi s = field 8 38 binary /\ 0 <= sv_mmsi s < 2 ^ 30
    /\ ship_type s = field 232 240 binary /\ 0 <= ship_type s < 256
    /\ ship_type_name s = ship_type_display (ship_type s)
    /\ call_sign s = _decode_text (slice 70 112 binary)
    /\ vessel_name s = _decode_text (slice 112 232 binary)
    /\ destination s = _decode_text (slice 298 422 binary)
    /\ (String.length (call_sign s) <= 7)%nat
    /\ (String.length (vessel_name s) <= 20)%nat
    /\ (String.length (destination s) <= 20)%nat
    /\ (0 <= draught s /\ draught s <= 25.5)%Q.
Proof.
  intros Hlen. unfold _parse_static_voyage_data.
  destruct (Nat.ltb_spec (length binary) 424) as [|_]; [lia|].
  rewrite !int2_slice by lia. cbn [mbind option_bind].
  eexists. split; [reflexivity|].
  cbn [sv_timestamp sv_mmsi ship_type ship_type_name call_sign vessel_name
       destination draught].
  fold (field 8 38 binary) (field 232 240 binary) (field 290 298 binary).
  pose proof (slice_value_range 8 38 binary ltac:(lia) ltac:(lia)) as R1.
  pose proof (slice_value_range 232 240 binary ltac:(lia) ltac:(lia)) as R2.
  vm_compute (Z.of_nat _) in R1, R2.
  fold (field 8 38 binary) in R1. fold (field 232 240 binary) in R2.
  pose proof (length__decode_text_slice 70 112 binary ltac:(lia) ltac:(lia)).
  pose proof (length__decode_text_slice 112 232 binary ltac:(lia) ltac:(lia)).
  pose proof (length__decode_text_slice 298 422 binary ltac:(lia) ltac:(lia)).
  repeat match goal with
         | |- _ /\ _ => split
         end; try reflexivity; try lia.
  - apply (tenths_range 290 298 binary 255); [lia | lia | reflexivity].
  - destruct (tenths_range 290 298 binary 255) as [_ B]; [lia | lia | reflexivity|].
    vm_compute (inject_Z 255 / 10)%Q in B. lra.
Qed.

Lemma static_voyage_data_total_witness :
  exists s : StaticVoyageData,
    _parse_static_voyage_data (_ais_to_binary static_payload_type_65) 1758574798
    = Some s
    /\ ship_type_name s = ship_type_display (ship_type s).
Proof.
  destruct (static_voyage_data_total (_ais_to_binary static_payload_type_65)
              1758574798) as (s & Hs & _ & _ & _ & _ & _ & Hname & _).
  - apply Nat.leb_le. vm_compute. reflexivity.
  - exists s. split; assumption.
Defined.

(** ** The line extractor *)

Lemma strip_prefix_Some (p s rest : string) :
  strip_prefix p s = Some rest -> s = (p ++ rest)%string.
Proof.
  revert s. induction p as [|a p IH]; intros s.
  - cbn. intros [= ->]. reflexivity.
  - destruct s as [|b s]; [discriminate|]. cbn [strip_prefix].
    destruct (Ascii.eqb_spec a b) as [->|]; [|discriminate].
    intros H. apply IH in H. subst s. reflexivity.
Qed.

Lemma re_search_Some {A} (m : string -> option A) (s : string) (r : A) :
  re_search m s = Some r ->
  exists pre suf : string, s = (pre ++ suf)%string /\ m suf = Some r.
Proof.
  induction s as [|c s IH]; cbn [re_search].
  - destruct (m EmptyString) eqn:E; [|discriminate].
    intros [= <-]. exists EmptyString, EmptyString. split; [reflexivity | exact E].
  - destruct (m (String c s)) eqn:E.
    + intros [= <-]. exists EmptyString, (String c s). split; [reflexivity | exact E].
    + intros H. destruct (IH H) as (pre & suf & -> & Hm).
      exists (String c pre), suf. split; [reflexivity | exact Hm].
Qed.

Lemma span_all_chars (f : ascii -> bool) (s run tl : string) :
  span f s = (run, tl) -> all_chars f run /\ s = (run ++ tl)%string.
Proof.
  revert run tl. induction s as [|c s IH]; intros run tl; cbn [span].
  - intros [= <- <-]. split; [exact I | reflexivity].
  - destruct (f c) eqn:Hc.
    + destruct (span f s) as [run' tl']. intros [= <- <-].
      destruct (IH run' tl' eq_refl) as [Hall ->].
      split; [split; assumption | reflexivity].
    + intros [= <- <-]. split; [exact I | reflexivity].
Qed.

Lemma int10_acc_nonneg (l : list ascii) (acc : Z) :
  Forall (fun c => isdigit c = true) l -> 0 <= acc ->
  0 <= fold_left (fun acc c => 10 * acc + (ord c - ord "0")) l acc.
Proof.
  intros Hl. revert acc. induction Hl as [|c l Hc _ IH]; intros acc Hacc.
  - exact Hacc.
  - cbn [fold_left]. apply IH. apply char_between_spec in Hc. ord_lia.
Qed.

Lemma all_chars_Forall (f : ascii -> bool) (s : string) :
  all_chars f s -> Forall (fun c => f c = true) (list_ascii_of_string s).
Proof.
  induction s as [|c s IH]; cbn; [constructor|].
  intros [Hc Hs]. constructor; [exact Hc | apply IH, Hs].
Qed.

Lemma match_timestamp_Some (s digits : string) :
  match_timestamp s = Some digits ->
  all_chars isdigit digits /\ digits <> EmptyString
  /\ exists rest : string, s = ("c:" ++ digits ++ rest)%string.
Proof.
  unfold match_timestamp.
  destruct (strip_prefix "c:" s) as [rest|] eqn:Hpre; [|discriminate].
  cbn [mbind option_bind].
  destruct (span isdigit rest) as [run tl] eqn:Hspan.
  apply span_all_chars in Hspan as [Hall ->].
  apply strip_prefix_Some in Hpre.
  destruct run as [|c run]; [discriminate|].
  intros [= <-]. split; [exact Hall|]. split; [discriminate|].
  exists tl. exact Hpre.
Qed.

Lemma match_aivdm_Some (s payload : string) :
  match_aivdm s = Some payload ->
  all_chars (fun c => negb (Ascii.eqb c ",")) payload
  /\ payload <> EmptyString
  /\ exists rest : string, s = ("!AIVDM," ++ rest)%string.
Proof.
  unfold match_aivdm.
  destruct (strip_prefix "!AIVDM," s) as [s1|] eqn:Hpre; [|discriminate].
  apply strip_prefix_Some in Hpre.
  cbn [mbind option_bind].
  destruct (match_digits_then "," s1) as [s2|]; [|discriminate].
  cbn [mbind option_bind].
  destruct (match_digits_then ",," s2) as [s3|]; [|discriminate].
  cbn [mbind option_bind].
  destruct s3 as [|channel s4]; [discriminate|].
  destruct (Ascii.eqb channel "010"); [discriminate|].
  destruct (strip_prefix "," s4) as [s5|]; [|discriminate].
  cbn [mbind option_bind].
  destruct (span _ s5) as [run tl] eqn:Hspan.
  apply span_all_chars in Hspan as [Hall _].
  destruct run as [|c run]; [discriminate|].
  intros [= <-]. split; [exact Hall|]. split; [discriminate|].
  exists s1. exact Hpre.
Qed.

(** What a line that parses must contain. *)
Lemma parse_nmea_line_Some (line : string) (m : DecodedMessage) :
  parse_nmea_line line = Some m ->
  exists digits payload : string,
    re_search match_timestamp line = Some digits
    /\ re_search match_aivdm line = Some payload
    /\ 0 <= int10 digits <= MAX_TIMESTAMP
    /\ parse_ais_message payload (int10 digits) = Some m.
Proof.
  unfold parse_nmea_line.
  destruct (re_search match_timestamp line) as [digits|] eqn:Hts; [|discriminate].
  cbn [mbind option_bind]. unfold fromtimestamp.
  destruct (Z.leb_spec (int10 digits) MAX_TIMESTAMP) as [Hmax|]; [|discriminate].
  cbn [mbind option_bind].
  destruct (re_search match_aivdm line) as [payload|] eqn:Hp; [|discriminate].
  cbn [mbind option_bind]. intros Hm.
  exists digits, payload. repeat split; try assumption.
  apply re_search_Some in Hts as (_ & suf & _ & Hts).
  apply match_timestamp_Some in Hts as (Hall & _).
  apply int10_acc_nonneg; [apply all_chars_Forall, Hall | lia].
Qed.

(** X11.  A line yields a message only if it contains the timestamp marker
    ["c:"] followed by a digit and the sentence marker ["!AIVDM,"]; the
    message is then the one of the extracted payload, which is not empty
    and has no comma, at the extracted timestamp, which lies between 0 and
    the last second of the year 9999. *)
Theorem parse_nmea_line_markers (line : string) (m : DecodedMessage) :
  parse_nmea_line line = Some m ->
  contains "c:" line /\ contains "!AIVDM," line
  /\ exists digits payload : string,
       re_search match_timestamp line = Some digits
       /\ re_search match_aivdm line = Some payload
       /\ all_chars isdigit digits /\ digits <> EmptyString
       /\ all_chars (fun c => negb (Ascii.eqb c ",")) payload
       /\ payload <> EmptyString
       /\ 0 <= int10 digits <= MAX_TIMESTAMP
       /\ parse_ais_message payload (int10 digits) = Some m.
Proof.
  intros Hm.
  destruct (parse_nmea_line_Some line m Hm) as (digits & payload & Hts & Hp & Hrange & Hmsg).
  pose proof Hts as Hts'. pose proof Hp as Hp'.
  apply re_search_Some in Hts' as (pre1 & suf1 & -> & Hts').
  apply match_timestamp_Some in Hts' as (Hdigits & Hne1 & rest1 & ->).
  apply re_search_Some in Hp' as (pre2 & suf2 & Hline & Hp').
  apply match_aivdm_Some in Hp' as (Hcomma & Hne2 & rest2 & ->).
  split; [exists pre1, (digits ++ rest1)%string; reflexivity|].
  split; [exists pre2, rest2; exact Hline|].
  exists digits, payload. destruct Hrange. repeat split; assumption.
Qed.

Lemma parse_nmea_line_markers_witness :
  contains "c:" ("c:1758574798*59\!AIVDM,1,1,,B," ++ full_fix_payload ++ ",0*75")%string.
Proof.
  destruct (parse_nmea_line
              ("c:1758574798*59\!AIVDM,1,1,,B," ++ full_fix_payload ++ ",0*75")%string)
    as [m|] eqn:Hm; [|vm_compute in Hm; discriminate Hm].
  apply (parse_nmea_line_markers _ m Hm).
Defined.

(** ** The rows of the pipeline *)

Section Rows.
Context `{M : MathLib}.

(** One message appends at most one row and changes no earlier row. *)
Lemma process_parsed_appends (st : State) (parsed : DecodedMessage) :
  exists new : list TrackPoint,
    ship_data (process_parsed st parsed) = ship_data st ++ new
    /\ (length new <= 1)%nat.
Proof.
  destruct parsed as [r|s]; cbn [process_parsed].
  - unfold process_position.
    destruct (is_position_type (message_type r));
      [|exists []; rewrite app_nil_r; split; [reflexivity | cbn; lia]].
    destruct (lat r) as [la|], (lon r) as [lo|];
      try (eexists [_]; split; [reflexivity | cbn; lia]);
      (destruct (ship_last_positions st !! mmsi r) as [last_pos|];
       [|exists []; rewrite app_nil_r; split; [reflexivity | cbn; lia]];
       cbv zeta;
       destruct (_ && _);
       [|exists []; rewrite app_nil_r; split; [reflexivity | cbn; lia]];
       destruct (calculate_position _ _ _ _ _);
       eexists [_]; split; [reflexivity | cbn; lia]).
  - exists []. rewrite app_nil_r. split; [reflexivity | cbn; lia].
Qed.

Lemma process_line_appends (st : State) (line : string) :
  exists new : list TrackPoint,
    ship_data (process_line st line) = ship_data st ++ new
    /\ (length new <= 1)%nat.
Proof.
  unfold process_line.
  destruct (parse_nmea_line (strip line)) as [parsed|];
    [apply process_parsed_appends|].
  exists []. rewrite app_nil_r. split; [reflexivity | cbn; lia].
Qed.

Lemma fold_process_line_appends (lines : list string) (st : State) :
  exists new : list TrackPoint,
    ship_data (fold_left process_line lines st) = ship_data st ++ new
    /\ (length new <= length lines)%nat.
Proof.
  revert st. induction lines as [|line lines IH]; intros st.
  - exists []. rewrite app_nil_r. split; [reflexivity | cbn; lia].
  - cbn [fold_left].
    destruct (process_line_appends st line) as (new1 & H1 & L1).
    destruct (IH (process_line st line)) as (new2 & H2 & L2).
    exists (new1 ++ new2). rewrite H2, H1, <- app_assoc.
    split; [reflexivity|]. rewrite length_app. cbn [length]. lia.
Qed.

(** X12.  The pipeline returns at most one row per line of the file. *)
Theorem pipeline_length (lines : list string) :
  (length (process_ais_log_file lines) <= length lines)%nat.
Proof.
  unfold process_ais_log_file.
  destruct (fold_process_line_appends lines initial_state) as (new & H & L).
  rewrite H. cbn [ship_data initial_state app]. exact L.
Qed.

(** X13.  Rows are only ever appended: the rows of a file are a prefix of
    the rows of the same file with more lines after it, so no later line
    changes or removes a row already emitted. *)
Theorem pipeline_prefix (lines more : list string) :
  process_ais_log_file lines `prefix_of` process_ais_log_file (lines ++ more).
Proof.
  unfold process_ais_log_file. rewrite fold_left_app.
  destruct (fold_process_line_appends more (fold_left process_line lines initial_state))
    as (new & H & _).
  exists new. exact H.
Qed.

Lemma process_line_valid (st : State) (line : string) :
  Forall valid_row (ship_data st) ->
  Forall valid_row (ship_data (process_line st line)).
Proof.
  intros Hst. unfold process_line.
  destruct (parse_nmea_line (strip line)) as [[r|s]|] eqn:Hparse;
    [| exact Hst | exact Hst].
  pose proof (parse_nmea_line_has_fix _ _ Hparse) as (Htype & [la Hla] & [lo Hlo]).
  apply parse_nmea_line_Some in Hparse
    as (digits & payload & _ & _ & Hrange & Hmsg).
  rewrite parse_ais_message_dispatch in Hmsg.
  destruct (armored_values payload) as [|val vals]; [discriminate|].
  destruct (is_position_type val);
    [|destruct (val =? 5); [|discriminate];
      destruct (_parse_static_voyage_data _ _); discriminate].
  destruct (_parse_position_report _ _ _) as [r'|] eqn:Hr; [|discriminate].
  injection Hmsg as <-.
  pose proof (_parse_position_report_tags _ _ _ _ Hr) as [_ Hts].
  apply _parse_position_report_valid in Hr
    as (Hm & Hn & _ & Hs & Ha & Hc & Hh & _ & la' & lo' & Hla' & Hlo' & Hlat & Hlon).
  rewrite Hla in Hla'. injection Hla' as <-.
  rewrite Hlo in Hlo'. injection Hlo' as <-.
  cbn [process_parsed].
  rewrite (process_position_full_fix st r' la lo Htype Hla Hlo).
  cbn [ship_data]. apply Forall_app. split; [exact Hst|].
  constructor; [|constructor].
  unfold valid_row, track_point.
  cbn [tp_timestamp tp_mmsi tp_lat tp_lon tp_sog tp_cog tp_nav_status
       tp_position_accuracy tp_true_heading].
  rewrite Hts. repeat split; try tauto; lia.
Qed.

Lemma fold_process_line_valid (lines : list string) (st : State) :
  Forall valid_row (ship_data st) ->
  Forall valid_row (ship_data (fold_left process_line lines st)).
Proof.
  revert st. induction lines as [|line lines IH]; intros st Hst.
  - exact Hst.
  - cbn [fold_left]. apply IH, process_line_valid, Hst.
Qed.

(** X14.  Every row the pipeline returns has a timestamp between 0 and the
    last second of the year 9999, an MMSI below 2^30, a latitude in
    (-90, 90], a longitude in (-180, 180], a speed in [0, 102.3], a course
    in [0, 409.5], a status below 16, an accuracy of 0 or 1 and a heading
    below 512. *)
Theorem pipeline_rows_valid (lines : list string) :
  Forall
    (fun tp =>
       0 <= tp_timestamp tp <= MAX_TIMESTAMP
       /\ 0 <= tp_mmsi tp < 2 ^ 30
       /\ (-90 < tp_lat tp /\ tp_lat tp <= 90)%Q
       /\ (-180 < tp_lon tp /\ tp_lon tp <= 180)%Q
       /\ (0 <= tp_sog tp /\ tp_sog tp <= 102.3)%Q
       /\ (0 <= tp_cog tp /\ tp_cog tp <= 409.5)%Q
       /\ 0 <= tp_nav_status tp < 16
       /\ 0 <= tp_position_accuracy tp <= 1
       /\ 0 <= tp_true_heading tp < 512)
    (process_ais_log_file lines).
Proof.
  unfold process_ais_log_file.
  apply (fold_process_line_valid lines initial_state). constructor.
Qed.

End Rows.

(** ** Static data and the state of the other vessels *)

Section Vessels.
Context `{M : MathLib}.

(** X15.  A static message adds no row and changes no row and no stored
    position; the next full-fix report of the same MMSI gets its ship
    type, ship-type name and vessel name.  A full-fix report of a vessel
    with no static message so far gets ship type 0 and no names. *)
Theorem static_data_attached (st : State) (r : PositionReport) (la lo : Q) :
  is_position_type (message_type r) = true ->
  lat r = Some la -> lon r = Some lo ->
  (forall s : StaticVoyageData,
      sv_mmsi s = mmsi r ->
      let st1 := process_parsed st (Static s) in
      ship_data st1 = ship_data st
      /\ ship_last_positions st1 = ship_last_positions st
      /\ exists tp : TrackPoint,
           ship_data (process_parsed st1 (Position r)) = ship_data st ++ [tp]
           /\ tp_ship_type tp = ship_type s
           /\ tp_ship_type_name tp = Some (ship_type_name s)
           /\ tp_vessel_name tp = Some (vessel_name s))
  /\ (ship_static_data st !! mmsi r = None ->
      exists tp : TrackPoint,
        ship_data (process_parsed st (Position r)) = ship_data st ++ [tp]
        /\ tp_ship_type tp = 0
        /\ tp_ship_type_name tp = None
        /\ tp_vessel_name tp = None).
Proof.
  intros Htype Hla Hlo. split.
  - intros s Hmmsi st1. subst st1. cbn [process_parsed ship_data ship_last_positions].
    split; [reflexivity|]. split; [reflexivity|].
    rewrite (process_position_full_fix _ r la lo Htype Hla Hlo).
    cbn [ship_data ship_static_data]. eexists. split; [reflexivity|].
    rewrite Hmmsi, lookup_insert_eq. cbn. repeat split.
  - intros Hnone. cbn [process_parsed].
    rewrite (process_position_full_fix _ r la lo Htype Hla Hlo).
    cbn [ship_data]. eexists. split; [reflexivity|].
    rewrite Hnone. cbn. repeat split.
Qed.

(** X16.  A message touches the stored state of its own MMSI only: the
    last position and the static record of every other vessel stay as
    they were; a position report never changes a static record and a
    static message never changes a stored position. *)
Theorem other_vessels_untouched (st : State) (parsed : DecodedMessage) (k : Z) :
  (k <> message_mmsi parsed ->
   ship_last_positions (process_parsed st parsed) !! k = ship_last_positions st !! k
   /\ ship_static_data (process_parsed st parsed) !! k = ship_static_data st !! k)
  /\ (forall r : PositionReport,
        parsed = Position r ->
        ship_static_data (process_parsed st parsed) = ship_static_data st)
  /\ (forall s : StaticVoyageData,
        parsed = Static s ->
        ship_last_positions (process_parsed st parsed) = ship_last_positions st).
Proof.
  assert (Hpos : forall r,
             ship_static_data (process_position st r) = ship_static_data st
             /\ forall k, k <> mmsi r ->
                  ship_last_positions (process_position st r) !! k
                  = ship_last_positions st !! k).
  { intros r. unfold process_position.
    destruct (is_position_type (message_type r)); [|split; reflexivity].
    destruct (lat r) as [la|], (lon r) as [lo|];
      try (cbn [ship_static_data ship_last_positions]; split; [reflexivity|];
           intros k' Hk'; apply lookup_insert_ne; congruence);
      (destruct (ship_last_positions st !! mmsi r) as [last_pos|];
       [|split; reflexivity]; cbv zeta;
       destruct (_ && _); [|split; reflexivity];
       destruct (calculate_position _ _ _ _ _);
       cbn [ship_static_data ship_last_positions]; split; [reflexivity|];
       intros k' Hk'; apply lookup_insert_ne; congruence). }
  split; [|split].
  - intros Hk. destruct parsed as [r|s]; cbn [process_parsed message_mmsi] in *.
    + destruct (Hpos r) as [Hs Hl]. rewrite Hs. split; [apply Hl, Hk | reflexivity].
    + cbn [ship_last_positions ship_static_data]. split; [reflexivity|].
      apply lookup_insert_ne. congruence.
  - intros r ->. apply Hpos.
  - intros s ->. reflexivity.
Qed.

(** X17.  The staleness window restarts at every dead-reckoned point:
    after a report without coordinates has been dead-reckoned, the next
    one of the same vessel is dead-reckoned from the estimated position
    and the estimate's time whenever it comes more than 0 and less than
    3600 seconds later, however old the last real fix is. *)
Theorem dead_reckoning_chains (st : State) (r1 r2 : PositionReport) :
  is_position_type (message_type r1) = true ->
  is_position_type (message_type r2) = true ->
  lat r1 = None \/ lon r1 = None ->
  lat r2 = None \/ lon r2 = None ->
  mmsi r2 = mmsi r1 ->
  in_window st r1 ->
  0 < timestamp r2 - timestamp r1 < 3600 ->
  exists tp1 tp2 : TrackPoint,
    ship_data (process_position (process_position st r1) r2)
    = ship_data st ++ [tp1; tp2]
    /\ is_dead_reckoned tp1 = true /\ is_dead_reckoned tp2 = true
    /\ (tp_lat tp2, tp_lon tp2) =
         calculate_position (tp_lat tp1) (tp_lon tp1) (tp_sog tp1) (tp_cog tp1)
           (inject_Z (timestamp r2 - timestamp r1)).
Proof.
  intros Ht1 Ht2 Hmiss1 Hmiss2 Hmmsi Hwin1 Hgap.
  destruct (process_position_in_window st r1 Ht1 Hmiss1 Hwin1)
    as (last1 & tp1 & _ & Hdata1 & Hdr1 & _ & _ & _ & _ & Hstore1).
  assert (Hwin2 : in_window (process_position st r1) r2).
  { eexists. rewrite Hstore1, Hmmsi. split; [apply lookup_insert_eq|].
    cbn [lp_timestamp]. exact Hgap. }
  destruct (process_position_in_window _ r2 Ht2 Hmiss2 Hwin2)
    as (last2 & tp2 & Hlast2 & Hdata2 & Hdr2 & Hpos2 & _).
  rewrite Hstore1, Hmmsi, lookup_insert_eq in Hlast2. injection Hlast2 as <-.
  cbn [lp_lat lp_lon lp_sog lp_cog lp_timestamp] in Hpos2.
  exists tp1, tp2. rewrite Hdata2, Hdata1, <- app_assoc.
  repeat split; assumption.
Qed.

End Vessels.

Lemma other_vessels_untouched_witness :
  ship_last_positions
    (@process_parsed sample_math
       (@process_parsed sample_math initial_state (Position report_t0))
       (Position (missing_fix_at (1758574798 + 300)))) !! 211000000
  = ship_last_positions
      (@process_parsed sample_math initial_state (Position report_t0)) !! 211000000.
Proof.
  apply (@other_vessels_untouched sample_math). cbn. lia.
Defined.

Lemma dead_reckoning_chains_witness :
  exists tp1 tp2 : TrackPoint,
    ship_data
      (@process_position sample_math
         (@process_position sample_math
            (@process_position sample_math initial_state report_t0)
            (missing_fix_at (1758574798 + 3000)))
         (missing_fix_at (1758574798 + 6000)))
    = ship_data (@process_position sample_math initial_state report_t0)
      ++ [tp1; tp2]
    /\ is_dead_reckoned tp2 = true.
Proof.
  destruct (@dead_reckoning_chains sample_math
              (@process_position sample_math initial_state report_t0)
              (missing_fix_at (1758574798 + 3000))
              (missing_fix_at (1758574798 + 6000)))
    as (tp1 & tp2 & Hdata & _ & Hdr & _);
    try reflexivity; try (left; reflexivity).
  - eexists. split; [reflexivity|]. cbn. lia.
  - cbn. lia.
  - exists tp1, tp2. split; assumption.
Defined.

Lemma static_data_attached_witness :
  exists tp : TrackPoint,
    ship_data (@process_parsed sample_math initial_state (Position report_t0))
    = ship_data initial_state ++ [tp]
    /\ tp_ship_type tp = 0 /\ tp_vessel_name tp = None.
Proof.
  destruct (@static_data_attached sample_math initial_state report_t0 55.7%Q 21.1%Q)
    as [_ H]; try reflexivity.
  destruct H as (tp & Hdata & Htype & _ & Hname); [reflexivity|].
  exists tp. repeat split; assumption.
Defined.

(** * The hybrid processor *)

Import HybridAISProcessor.

Section HybridDeadReckoning.
Context `{M : MathLib}.

Lemma Qltb_lt (x y : Q) : Qltb x y = true <-> (x < y)%Q.
Proof. apply Qgtb_true. Qed.

Lemma no_fix_match (pos : HybridPosition) (X : Type) (full : Q -> Q -> X) (other : X) :
  ~ has_fix pos ->
  match hp_lat pos, hp_lon pos with
  | Some la, Some lo => full la lo
  | _, _ => other
  end = other.
Proof.
  unfold has_fix. intros H.
  destruct (hp_lat pos), (hp_lon pos); try reflexivity.
  exfalso. apply H. split; eauto.
Qed.

Lemma has_fix_dec (pos : HybridPosition) : has_fix pos \/ ~ has_fix pos.
Proof.
  unfold has_fix.
  destruct (hp_lat pos), (hp_lon pos);
    [left; split; eauto | right | right | right];
    intros [[? H1] [? H2]]; discriminate.
Qed.

(** The loop never raises when [last_time] is set whenever [last_lat] and
    [last_lon] are, and it changes nothing but the coordinates and the
    flag of positions without a fix. *)
Lemma dead_reckon_from_total (positions : list HybridPosition)
    (last_lat last_lon last_time : option Q) :
  (is_Some last_lat -> is_Some last_lon -> is_Some last_time) ->
  exists out : list HybridPosition,
    dead_reckon_from last_lat last_lon last_time positions = Some out
    /\ Forall2
         (fun pos pos' =>
            pos' = pos
            \/ (~ has_fix pos
                /\ exists new_lat new_lon : Q,
                     pos' = dead_reckoned pos new_lat new_lon))
         positions out.
Proof.
  revert last_lat last_lon last_time.
  induction positions as [|pos rest IH]; intros last_lat last_lon last_time Hinv.
  { exists []. split; [reflexivity | constructor]. }
  cbn [dead_reckon_from].
  destruct (hp_lat pos) as [la|] eqn:Hla, (hp_lon pos) as [lo|] eqn:Hlo.
  1: { destruct (IH (Some la) (Some lo) (Some (hp_timestamp pos))) as (out & -> & Hout);
         [eauto|].
       exists (pos :: out). split; [reflexivity|]. constructor; [left; reflexivity | exact Hout]. }
  all: assert (Hmiss : ~ has_fix pos)
         by (unfold has_fix; rewrite ?Hla, ?Hlo; intros [[? ?] [? ?]]; discriminate).
  all: destruct last_lat as [lat0|], last_lon as [lon0|];
         try (destruct (IH _ _ last_time Hinv) as (out & -> & Hout);
              exists (pos :: out); split; [reflexivity|];
              constructor; [left; reflexivity | exact Hout]).
  all: destruct (Hinv ltac:(eauto) ltac:(eauto)) as [t0 ->];
         cbn [mbind option_bind];
         destruct (_ && _);
         [ destruct (calculate_position _ _ _ _ _) as [new_lat new_lon];
           destruct (IH (Some new_lat) (Some new_lon) (Some t0)) as (out & -> & Hout);
             [eauto|];
           exists (dead_reckoned pos new_lat new_lon :: out);
           split; [reflexivity|];
           constructor; [right; split; [exact Hmiss | eauto] | exact Hout]
         | destruct (IH (Some lat0) (Some lon0) (Some t0)) as (out & -> & Hout);
             [eauto|];
           exists (pos :: out); split; [reflexivity|];
           constructor; [left; reflexivity | exact Hout] ].
Qed.

(** X18.  The dead-reckoning pass of the hybrid processor never raises
    and keeps the track position by position: every position is returned
    as it was, or it had no fix and is returned with estimated
    coordinates and [is_dead_reckoned = True] and every other field
    unchanged.  A position with a fix is never changed. *)
Theorem apply_dead_reckoning_total (positions : list HybridPosition) :
  exists out : list HybridPosition,
    _apply_dead_reckoning positions = Some out
    /\ length out = length positions
    /\ Forall2
         (fun pos pos' =>
            (has_fix pos -> pos' = pos)
            /\ (pos' = pos
                \/ exists new_lat new_lon : Q,
                     pos' = dead_reckoned pos new_lat new_lon))
         positions out.
Proof.
  destruct (dead_reckon_from_total positions None None None) as (out & Hout & Hrel).
  { intros [? H]. discriminate H. }
  exists out. split; [exact Hout|].
  split; [symmetry; apply (Forall2_length _ _ _ Hrel)|].
  eapply Forall2_impl; [exact Hrel|].
  cbn. intros pos pos' [->|(Hmiss & new_lat & new_lon & ->)].
  - split; [reflexivity | left; reflexivity].
  - split; [intros Hfix; contradiction | right; eauto].
Qed.

Lemma dead_reckon_from_no_fix (positions : list HybridPosition) :
  Forall (fun pos => ~ has_fix pos) positions ->
  forall rest : list HybridPosition,
    dead_reckon_from None None None (positions ++ rest)
    = app positions <$> dead_reckon_from None None None rest.
Proof.
  induction 1 as [|pos positions Hpos _ IH]; intros rest.
  - cbn [app]. destruct (dead_reckon_from None None None rest); reflexivity.
  - cbn [app dead_reckon_from]. rewrite (no_fix_match pos _ _ _ Hpos).
    rewrite IH. destruct (dead_reckon_from None None None rest); reflexivity.
Qed.

(** X19.  Positions without a fix at the start of a track, before the
    first position with a fix, are never filled in: the pass returns them
    as they are, followed by the result for the rest of the track. *)
Theorem leading_gaps_stay (gaps rest : list HybridPosition) :
  Forall (fun pos => ~ has_fix pos) gaps ->
  _apply_dead_reckoning (gaps ++ rest) = app gaps <$> _apply_dead_reckoning rest.
Proof. intros Hgaps. apply (dead_reckon_from_no_fix gaps Hgaps rest). Qed.

(** X20.  In the hybrid processor the staleness window is anchored at
    the last real fix: after a fix at [t0] and a dead-reckoned position,
    the next position without a fix is estimated from the previous
    estimate, with the current report's speed and course, over the time
    elapsed since [t0] when that is below 3600 seconds, and it is left
    without coordinates when that is 3600 seconds or more, however close
    to the previous estimate it is. *)
Theorem hybrid_window_anchored (p0 p1 p2 : HybridPosition) (la lo : Q) :
  hp_lat p0 = Some la -> hp_lon p0 = Some lo ->
  ~ has_fix p1 -> ~ has_fix p2 ->
  (0 < hp_timestamp p1 - hp_timestamp p0)%Q ->
  (hp_timestamp p1 - hp_timestamp p0 < 3600)%Q ->
  (0 < hp_timestamp p2 - hp_timestamp p0)%Q ->
  let e1 := calculate_position la lo (hp_sog p1) (hp_cog p1)
              (hp_timestamp p1 - hp_timestamp p0)%Q in
  let e2 := calculate_position e1.1 e1.2 (hp_sog p2) (hp_cog p2)
              (hp_timestamp p2 - hp_timestamp p0)%Q in
  ((hp_timestamp p2 - hp_timestamp p0 < 3600)%Q ->
   _apply_dead_reckoning [p0; p1; p2]
   = Some [p0; dead_reckoned p1 e1.1 e1.2; dead_reckoned p2 e2.1 e2.2])
  /\ ((3600 <= hp_timestamp p2 - hp_timestamp p0)%Q ->
      _apply_dead_reckoning [p0; p1; p2]
      = Some [p0; dead_reckoned p1 e1.1 e1.2; p2]).
Proof.
  intros Hla Hlo Hm1 Hm2 Hpos1 Hlt1 Hpos2 e1 e2.
  unfold _apply_dead_reckoning. cbn [dead_reckon_from].
  rewrite Hla, Hlo.
  rewrite (no_fix_match p1 _ _ _ Hm1). cbn [mbind option_bind].
  rewrite (proj2 (Qgtb_true _ _) Hpos1), (proj2 (Qltb_lt _ _) Hlt1). cbn [andb].
  fold e1. destruct e1 as [lat1 lon1] eqn:He1.
  rewrite (no_fix_match p2 _ _ _ Hm2). cbn [mbind option_bind].
  rewrite (proj2 (Qgtb_true _ _) Hpos2). cbn [andb fst snd] in *.
  split.
  - intros Hlt2. rewrite (proj2 (Qltb_lt _ _) Hlt2).
    subst e2. destruct (calculate_position lat1 lon1 _ _ _). reflexivity.
  - intros Hge2. rewrite (proj2 (Qltb_false _ _) Hge2). reflexivity.
Qed.

End HybridDeadReckoning.

Lemma leading_gaps_stay_witness :
  @_apply_dead_reckoning sample_math
    ([hybrid_position 0 false; hybrid_position 60 false]
     ++ [hybrid_position 120 true])
  = Some [hybrid_position 0 false; hybrid_position 60 false;
          hybrid_position 120 true].
Proof.
  rewrite (@leading_gaps_stay sample_math
             [hybrid_position 0 false; hybrid_position 60 false]
             [hybrid_position 120 true]).
  - reflexivity.
  - repeat constructor; intros [[? H] _]; discriminate H.
Defined.

Lemma hybrid_window_anchored_witness :
  exists est : HybridPosition,
    @_apply_dead_reckoning sample_math
      [hybrid_position 0 true; hybrid_position 3000 false;
       hybrid_position 3700 false]
    = Some [hybrid_position 0 true; est; hybrid_position 3700 false]
    /\ hp_is_dead_reckoned est = true.
Proof.
  destruct (@hybrid_window_anchored sample_math
              (hybrid_position 0 true) (hybrid_position 3000 false)
              (hybrid_position 3700 false) 55.7%Q 21.1%Q) as [_ H];
    try reflexivity;
    try (intros [[? H] _]; discriminate H).
  eexists. split; [apply H; vm_compute; intros E; discriminate E | reflexivity].
Defined.

(** ** The two ship-type tables *)



(** ** Characters with the same value *)

Lemma armor_value_inv (char : ascii) (val : Z) :
  armor_value char = Some val ->
  (ord char = 64 /\ val = 0)
  \/ (65 <= ord char <= 87 /\ val = ord char - 64)
  \/ (97 <= ord char <= 119 /\ val = ord char - 64)
  \/ (48 <= ord char <= 57 /\ val = ord char).
Proof.
  unfold armor_value.
  destruct (Ascii.eqb_spec char "@") as [->|_];
    [intros [= <-]; left; split; reflexivity|].
  destruct (char_between "A" char "W") eqn:E1;
    [apply char_between_spec in E1; intros [= <-]; right; left; ord_lia|].
  destruct (char_between "a" char "w") eqn:E2;
    [apply char_between_spec in E2; intros [= <-]; right; right; left; ord_lia|].
  destruct (char_between "0" char "9") eqn:E3;
    [apply char_between_spec in E3; intros [= <-]; right; right; right; ord_lia|].
  discriminate.
Qed.

(** X22.  The decoder gives two different characters the same value only
    for the letters ['p'..'w'] and the digits ['0'..'7'] (values 48..55,
    codes 64 apart), and it does so for every such letter; all other
    armored characters are told apart by their value. *)
Theorem armor_value_collisions :
  (forall (c1 c2 : ascii) (val : Z),
      armor_value c1 = Some val -> armor_value c2 = Some val -> c1 <> c2 ->
      48 <= val <= 55 /\ (ord c1 = ord c2 + 64 \/ ord c2 = ord c1 + 64))
  /\ (forall c : ascii,
        ord "p" <= ord c <= ord "w" ->
        isdigit (chr (ord c - 64)) = true
        /\ armor_value (chr (ord c - 64)) = armor_value c
        /\ forall rest : string,
             _ais_to_binary (String (chr (ord c - 64)) rest)
             = _ais_to_binary (String c rest)).
Proof.
  split.
  - intros c1 c2 val H1 H2 Hne.
    assert (ord c1 <> ord c2) as Hord by (intros E; apply Hne, ord_inj, E).
    apply armor_value_inv in H1. apply armor_value_inv in H2. lia.
  - intros c Hc.
    destruct (armor_value_table c) as (_ & _ & Tlower & _).
    destruct (armor_value_table (chr (ord c - 64))) as (_ & _ & _ & Tdigit).
    assert (Hd : ord (chr (ord c - 64)) = ord c - 64)
      by (apply ord_chr; ord_lia).
    assert (Hval : armor_value (chr (ord c - 64)) = armor_value c).
    { rewrite Tlower by ord_lia. rewrite Tdigit by (rewrite Hd; ord_lia).
      rewrite Hd. f_equal. ord_lia. }
    split; [apply char_between_spec; rewrite Hd; ord_lia|].
    split; [exact Hval|].
    intros rest. cbn [_ais_to_binary]. rewrite Hval. reflexivity.
Qed.

Lemma armor_value_collisions_witness :
  _ais_to_binary "0@" = _ais_to_binary "p@".
Proof.
  destruct armor_value_collisions as [_ H].
  destruct (H "p"%char) as (_ & _ & Hbits); [ord_lia|].
  exact (Hbits "@"%string).
Defined.
